(** * CourtListener MCP server: a shallow embedding of [server.py]

    The server is a thin adapter: every tool builds one or two HTTP
    requests, hands them to [api_request], and formats the decoded JSON
    as text.  The embedding below follows [server.py] function by
    function.

    Modelling conventions.
    - A Python [str] is a [string]; one [ascii] stands for one character,
      the code point of the same number, so [len] is [String.length].
      The alphabet is the code points below 256, and the character classes
      of [str.strip] and of the pattern [\d] are those of Python on that
      range.  The one character of the source outside it, the dash of two
      error messages, is written in their literals as its UTF-8 bytes.
    - A decoded JSON value is a [json]; numbers are integers ([Z]), a
      dict is an association list read by first match.
    - A Python exception that the source does not catch is [Raise e].
    - The awaited calls run one after the other; the HTTP client that
      [_get_client] hands to a tool is an oracle [transport] from the
      requests issued so far and the current request to what the client
      does, and the state threaded through a tool is the list of requests
      issued. *)

From Stdlib Require Import ZArith List String Ascii Bool Lia.
From Stdlib Require Import Numbers.DecimalString.
From Stdlib Require Numbers.DecimalPos.
Import ListNotations.

Set Warnings "-register-all".

Local Open Scope Z_scope.
Local Open Scope string_scope.

(** List append, kept apart from the [++] of strings. *)
Infix "+++" := (@app _) (at level 60, right associativity).

(** ** Characters the source uses that a literal cannot hold directly *)

Definition nl : string := String "010"%char "".
Definition dquote : string := String "034"%char "".

(** ** JSON values, as [response.json()] yields them *)

Inductive json : Type :=
| JNull
| JBool (b : bool)
| JNum (n : Z)
| JStr (s : string)
| JList (l : list json)
| JDict (d : list (string * json)).

Definition dict := list (string * json).

Fixpoint lookup (k : string) (d : dict) : option json :=
  match d with
  | [] => None
  | (k', v) :: d' => if String.eqb k k' then Some v else lookup k d'
  end.

(** Python truthiness, as used by [if x], [not x], [x or y], [x and y]. *)
Definition truthy (v : json) : bool :=
  match v with
  | JNull => false
  | JBool b => b
  | JNum n => negb (n =? 0)%Z
  | JStr s => negb (String.eqb s "")
  | JList l => match l with [] => false | _ => true end
  | JDict d => match d with [] => false | _ => true end
  end.

Definition py_or (a b : json) : json := if truthy a then a else b.

Definition is_str (v : json) : bool :=
  match v with JStr _ => true | _ => false end.

(** [x == n] for an integer literal [n] other than 0 and 1 (so that no
    [bool] compares equal to it). *)
Definition eq_int (v : json) (n : Z) : bool :=
  match v with JNum m => (m =? n)%Z | _ => false end.

(** [x != s] for a string literal [s]. *)
Definition ne_str (v : json) (s : string) : bool :=
  match v with JStr t => negb (String.eqb t s) | _ => true end.

(** ** Uncaught exceptions *)

Inductive pyexn : Type :=
| AttributeError
| TypeError
| KeyError
| IndexError
| JSONDecodeError
| OtherError.

Inductive res (A : Type) : Type :=
| Ret (a : A)
| Raise (e : pyexn).
Arguments Ret {A} a.
Arguments Raise {A} e.

(** Sequencing: the rest runs unless an exception was raised. *)
Definition bind_res {A B : Type} (m : res A) (k : A -> res B) : res B :=
  match m with
  | Ret a => k a
  | Raise e => Raise e
  end.

Notation "x <- c ;; k" := (bind_res c (fun x => k))
  (at level 100, c at next level, right associativity).

Fixpoint mapM {A B : Type} (f : A -> res B) (l : list A) : res (list B) :=
  match l with
  | [] => Ret []
  | a :: l' =>
      match f a with
      | Ret b => match mapM f l' with Ret bs => Ret (b :: bs) | Raise e => Raise e end
      | Raise e => Raise e
      end
  end.

(** [for i, x in enumerate(l, i0)]: the body run on each element with its
    index, stopping at the first exception. *)
Fixpoint mapM_enum {A B : Type} (f : Z -> A -> res B) (i0 : Z) (l : list A)
  : res (list B) :=
  match l with
  | [] => Ret []
  | a :: l' =>
      match f i0 a with
      | Ret b =>
          match mapM_enum f (i0 + 1) l' with
          | Ret bs => Ret (b :: bs)
          | Raise e => Raise e
          end
      | Raise e => Raise e
      end
  end.

(** ** Strings: the library calls of the source *)

Definition join (sep : string) (l : list string) : string := String.concat sep l.

Definition str_of_Z (n : Z) : string := NilZero.string_of_int (Z.to_int n).

(** [str.isspace], which is what [str.strip] removes, on the code points
    below 256: TAB, LF, VT, FF, CR (9-13), FS, GS, RS, US and the space
    (28-32), NEL (133) and the no-break space (160). *)
Definition is_space (c : ascii) : bool :=
  let n := nat_of_ascii c in
  (((9 <=? n) && (n <=? 13)) || ((28 <=? n) && (n <=? 32))
   || (n =? 133) || (n =? 160))%nat.

Fixpoint lstrip (s : string) : string :=
  match s with
  | String c r => if is_space c then lstrip r else s
  | EmptyString => EmptyString
  end.

Fixpoint rstrip (s : string) : string :=
  match s with
  | String c r =>
      match rstrip r with
      | EmptyString => if is_space c then EmptyString else String c EmptyString
      | r' => String c r'
      end
  | EmptyString => EmptyString
  end.

(** [a or b] on two strings. *)
Definition str_or (a b : string) : string := if String.eqb a "" then b else a.

(** [s.strip()] *)
Definition py_strip (s : string) : string := lstrip (rstrip s).

(** [s[:k]]: for [k >= 0] the first [k] characters, for [k < 0] all but
    the last [-k] characters. *)
Definition slice_to (s : string) (k : Z) : string :=
  if (k <? 0)%Z
  then substring 0 (Z.to_nat (Z.of_nat (String.length s) + k)) s
  else substring 0 (Z.to_nat k) s.

(** [re.sub(r"</?mark>", "", s)].  [skip] counts the characters of the
    current match that remain to be dropped. *)
Fixpoint sub_mark (skip : nat) (s : string) : string :=
  match s with
  | EmptyString => EmptyString
  | String c r =>
      match skip with
      | S k => sub_mark k r
      | O =>
          if prefix "<mark>" s then sub_mark 5 r
          else if prefix "</mark>" s then sub_mark 6 r
          else String c (sub_mark 0 r)
      end
  end.

Definition re_sub_mark (s : string) : string := sub_mark 0 s.

(** [re.sub(r"<[^>]+>", "", s)].  A match starts at a ["<"] and runs to
    the next [">"], provided at least one character lies between them;
    [pend] holds the characters read since the ["<"] at which a match is
    being attempted.  ["<>"] is no match, and an opening with no [">"]
    after it is kept as it is. *)
Fixpoint sub_tags (pend : option string) (s : string) : string :=
  match s with
  | EmptyString => match pend with Some p => p | None => EmptyString end
  | String c r =>
      match pend with
      | None =>
          if Ascii.eqb c "<" then sub_tags (Some "<") r
          else String c (sub_tags None r)
      | Some p =>
          if Ascii.eqb c ">"
          then if String.eqb p "<" then "<>" ++ sub_tags None r
               else sub_tags None r
          else sub_tags (Some (p ++ String c "")) r
      end
  end.

Definition re_sub_tags (s : string) : string := sub_tags None s.

Definition is_digit (c : ascii) : bool :=
  let n := nat_of_ascii c in ((48 <=? n) && (n <=? 57))%nat.

(** The longest run of digits at the head of [s], and what follows it. *)
Fixpoint span_digits (s : string) : string * string :=
  match s with
  | String c r =>
      if is_digit c
      then let (ds, rest) := span_digits r in (String c ds, rest)
      else (EmptyString, s)
  | EmptyString => (EmptyString, EmptyString)
  end.

Fixpoint drop (n : nat) (s : string) : string :=
  match n, s with
  | S k, String _ r => drop k r
  | _, _ => s
  end.

(** The pattern [/opinions/(\d+)/] anchored at the head of [s]: group 1. *)
Definition match_opinion_at (s : string) : option string :=
  if prefix "/opinions/" s
  then let (ds, rest) := span_digits (drop 10 s) in
       match ds, rest with
       | String _ _, String "/" _ => Some ds
       | _, _ => None
       end
  else None.

(** [re.search(r"/opinions/(\d+)/", s)]: group 1 of the leftmost match. *)
Fixpoint re_search_opinion (s : string) : option string :=
  match match_opinion_at s with
  | Some ds => Some ds
  | None =>
      match s with
      | String _ r => re_search_opinion r
      | EmptyString => None
      end
  end.

(** [int(ds)] on a string of decimal digits. *)
Definition int_of_digits (ds : string) : Z :=
  fold_left (fun acc c => 10 * acc + (Z.of_nat (nat_of_ascii c) - 48))
            (list_ascii_of_string ds) 0.

(** The format spec [:,] on an [int]: groups of three digits from the
    right, separated by commas. *)
Fixpoint commas (k : nat) (rev_digits : list ascii) : list ascii :=
  match rev_digits with
  | [] => []
  | d :: r =>
      match k with
      | 3%nat => ","%char :: d :: commas 1 r
      | _ => d :: commas (S k) r
      end
  end.

Definition format_thousands (n : Z) : string :=
  let ds := list_ascii_of_string (str_of_Z (Z.abs n)) in
  let body := string_of_list_ascii (rev (commas 0 (rev ds))) in
  if (n <? 0)%Z then "-" ++ body else body.

(** [str(s)] of a one-character string for each character of [s]. *)
Fixpoint chars (s : string) : list string :=
  match s with
  | EmptyString => []
  | String c r => String c EmptyString :: chars r
  end.

Definition get_or (d : dict) (k : string) (dflt : json) : json :=
  match lookup k d with
  | Some v => v
  | None => dflt
  end.

(** [o.get(k, dflt)]: only a dict has the method. *)
Definition py_get (o : json) (k : string) (dflt : json) : res json :=
  match o with
  | JDict d => Ret (get_or d k dflt)
  | _ => Raise AttributeError
  end.

(** Iteration, as [for x in v] and [str.join(v)] see it: a list yields its
    elements, a string its characters, a dict its keys. *)
Definition py_iter (v : json) : res (list json) :=
  match v with
  | JList l => Ret l
  | JStr s => Ret (map JStr (chars s))
  | JDict d => Ret (map (fun kv => JStr (fst kv)) d)
  | _ => Raise TypeError
  end.

(** An element handed to [str.join] must be a [str]. *)
Definition as_str (v : json) : res string :=
  match v with JStr s => Ret s | _ => Raise TypeError end.

(** [v[0]] *)
Definition py_first (v : json) : res json :=
  match v with
  | JList (x :: _) => Ret x
  | JList [] => Raise IndexError
  | JStr (String c _) => Ret (JStr (String c EmptyString))
  | JStr EmptyString => Raise IndexError
  | JDict _ => Raise KeyError
  | _ => Raise TypeError
  end.

(** ** Configuration (lines 16-18) *)

Definition BASE_V3 : string := "https://www.courtlistener.com/api/rest/v3".
Definition BASE_V4 : string := "https://www.courtlistener.com/api/rest/v4".
Definition SITE : string := "https://www.courtlistener.com".

(** ** The HTTP client, seen from [api_request] *)

(** [client.request(method, url, **kwargs)]: the keyword arguments the
    tools pass are [params] (query string) and [data] (form body). *)
Record Request : Type := mkRequest
  { req_method : string;
    req_url : string;
    req_params : option dict;
    req_data : option dict }.

(** What [client.request] does.  [Response code text body]: a response
    arrived; [text] is [response.text] and [body] what [response.json()]
    returns, [None] when the text is not JSON.  [TimeoutException] and
    [RequestError msg] are the two [httpx] exception classes the source
    catches ([msg] is [str(exc)]; the first is a subclass of the second and
    is caught first); [Uncaught e] is any other exception. *)
Inductive Outcome : Type :=
| Response (code : Z) (text : string) (body : option json)
| TimeoutException
| RequestError (msg : string)
| Uncaught (e : pyexn).

(** [response.raise_for_status()] returns on a 2xx code and raises
    [HTTPStatusError] on every other. *)
Definition is_success (code : Z) : bool := ((200 <=? code) && (code <=? 299))%Z.

(** A tool is a computation over the list of requests issued so far. *)
Definition IO (A : Type) : Type := list Request -> res A * list Request.

Definition io_ret {A : Type} (a : A) : IO A := fun log => (Ret a, log).

Definition io_bind {A B : Type} (m : IO A) (k : A -> IO B) : IO B :=
  fun log =>
    match m log with
    | (Ret a, log') => k a log'
    | (Raise e, log') => (Raise e, log')
    end.

Notation "x <~ c ;; k" := (io_bind c (fun x => k))
  (at level 100, c at next level, right associativity).

Definition lift {A : Type} (r : res A) : IO A := fun log => (r, log).

(** The six HTML-bearing fields, in the order of the loop at lines 351-358. *)
Definition html_fields : list string :=
  [ "html_with_citations"; "html"; "html_columbia"; "html_lawbox";
    "html_anon_2020"; "xml_harvard" ].

(** A stand-in for [repr] on strings, for running the model on examples. *)
Definition repr_quote (s : string) : string := "'" ++ s ++ "'".

(** ** The server *)

Section Server.

(** [repr] on a [str] is Python's own (quote choice and escapes); the
    server only meets it when a container is formatted. *)
Variable repr_str : string -> string.

(** The module-level constant read from the environment at line 16. *)
Variable API_TOKEN : string.

(** The shared client: what it answers to a request, given the requests
    issued before it. *)
Variable transport : list Request -> Request -> Outcome.

Fixpoint py_repr (v : json) : string :=
  match v with
  | JNull => "None"
  | JBool true => "True"
  | JBool false => "False"
  | JNum n => str_of_Z n
  | JStr s => repr_str s
  | JList l => "[" ++ join ", " (map py_repr l) ++ "]"
  | JDict d =>
      "{" ++ join ", " (map (fun '(k, x) => repr_str k ++ ": " ++ py_repr x) d) ++ "}"
  end.

(** [str(v)], which is also what [{v}] in an f-string gives. *)
Definition py_str (v : json) : string :=
  match v with JStr s => s | _ => py_repr v end.

(** *** [api_request] (lines 61-89) *)

Definition status_error (code : Z) (text : string) : string :=
  if (code =? 401)%Z then "Error: Invalid API token. Check COURTLISTENER_API_TOKEN."
  else if (code =? 429)%Z
  then "Error: Rate limit exceeded. CourtListener allows 5,000 requests/day."
  else if (code =? 404)%Z then "Error: Resource not found."
  else "Error: HTTP " ++ str_of_Z code ++ " — " ++ substring 0 300 text.

Definition api_request (req : Request) : IO json :=
  fun log =>
    if String.eqb API_TOKEN ""
    then (Ret (JStr "Error: COURTLISTENER_API_TOKEN environment variable is not set."), log)
    else
      let log' := (log +++ [req]) in
      match transport log req with
      | Response code text body =>
          if is_success code
          then match body with
               | Some j => (Ret j, log')
               | None => (Raise JSONDecodeError, log')
               end
          else (Ret (JStr (status_error code text)), log')
      | TimeoutException => (Ret (JStr "Error: Request timed out after 30 seconds."), log')
      | RequestError msg => (Ret (JStr ("Error: Connection failed — " ++ msg)), log')
      | Uncaught e => (Raise e, log')
      end.

(** *** [format_search_results] (lines 92-130) *)

(** The f-string of lines 107 and 234, with its [.strip()]. *)
Definition cite_fields (c : json) : res string :=
  v <- py_get c "volume" (JStr "");;
  r <- py_get c "reporter" (JStr "");;
  p <- py_get c "page" (JStr "");;
  Ret (py_strip (py_str v ++ " " ++ py_str r ++ " " ++ py_str p)).

(** Lines 103-114: [citation_text] of one result. *)
Definition citation_text (case : json) : res string :=
  c0 <- py_get case "citations" JNull;;
  let cites := py_or c0 (JList []) in
  cite_strs <-
    match cites with
    | JList l =>
        match l with
        | JDict _ :: _ => mapM cite_fields l
        | _ => Ret (map py_str l)
        end
    | _ => Ret [py_str cites]
    end;;
  Ret (str_or (join ", " cite_strs) "None").

(** Lines 102-128: the block appended for result [case] with number [i]. *)
Definition format_case (i : Z) (case : json) : res string :=
  cites <- citation_text case;;
  sn <- py_get case "snippet" (JStr "N/A");;
  snippet <- match sn with
             | JStr s => Ret (re_sub_mark s)
             | _ => Raise TypeError
             end;;
  caseName <- py_get case "caseName" (JStr "Unknown");;
  court <- py_get case "court" (JStr "?");;
  dateFiled <- py_get case "dateFiled" (JStr "?");;
  citation_count <- py_get case "citation_count" (JNum 0);;
  citeCount <- py_get case "citeCount" citation_count;;
  cluster_id <- py_get case "cluster_id" (JStr "N/A");;
  absolute_url <- py_get case "absolute_url" (JStr "");;
  Ret (str_of_Z i ++ ". " ++ py_str caseName
       ++ " (" ++ py_str court ++ ", " ++ py_str dateFiled ++ ")" ++ nl
       ++ "   Citations: " ++ cites ++ nl
       ++ "   Cited by: " ++ py_str citeCount ++ " cases" ++ nl
       ++ "   Snippet: " ++ snippet ++ nl
       ++ "   Cluster ID: " ++ py_str cluster_id ++ nl
       ++ "   URL: " ++ SITE ++ py_str absolute_url ++ nl).

Definition format_search_results (data : json) (header : string) : res string :=
  count <- py_get data "count" (JNum 0);;
  results <- py_get data "results" (JList []);;
  if negb (truthy results)
  then Ret ("No results found. " ++ header)
  else
    cases <- py_iter results;;
    blocks <- mapM_enum format_case 1 cases;;
    Ret (join nl ((header ++ " (" ++ py_str count ++ " total results)" ++ nl) :: blocks)).

(** *** [_search_params] (lines 133-150) *)

Definition _search_params
  (query court filed_after filed_before order_by : string) (limit : Z) : dict :=
  let params := [("type", JStr "o"); ("q", JStr query); ("order_by", JStr order_by)] in
  let params := if String.eqb court "" then params
                else params +++ [("court", JStr court)] in
  let params := if String.eqb filed_after "" then params
                else params +++ [("filed_after", JStr filed_after)] in
  let params := if String.eqb filed_before "" then params
                else params +++ [("filed_before", JStr filed_before)] in
  params +++ [("limit", JNum (Z.min (Z.max limit 1) 20))].

Definition search_request (params : dict) : Request :=
  mkRequest "GET" (BASE_V4 ++ "/search/") (Some params) None.

(** [if isinstance(data, str): return data], then the formatter. *)
Definition pass_or_format (data : json) (fmt : json -> res string) : IO string :=
  match data with
  | JStr s => io_ret s
  | _ => lift (fmt data)
  end.

(** *** [search_cases] (lines 158-186) *)

Definition search_cases
  (query court filed_after filed_before order_by : string) (limit : Z) : IO string :=
  let params := _search_params query court filed_after filed_before order_by limit in
  data <~ api_request (search_request params);;
  pass_or_format data
    (fun d => format_search_results d ("Search results for " ++ dquote ++ query ++ dquote)).

(** *** [semantic_search] (lines 252-280) *)

Definition semantic_search
  (query court filed_after filed_before : string) (limit : Z) : IO string :=
  let params := _search_params query court filed_after filed_before "score desc" limit in
  data <~ api_request (search_request params);;
  pass_or_format data
    (fun d => format_search_results d
                ("Semantic search results for " ++ dquote ++ query ++ dquote)).

(** *** [find_citing_cases] (lines 403-430) *)

Definition find_citing_cases
  (cluster_id : Z) (court filed_after filed_before order_by : string) (limit : Z)
  : IO string :=
  let query := "cites:(" ++ str_of_Z cluster_id ++ ")" in
  let params := _search_params query court filed_after filed_before order_by limit in
  data <~ api_request (search_request params);;
  pass_or_format data
    (fun d => format_search_results d ("Cases citing cluster " ++ str_of_Z cluster_id)).

(** *** [lookup_citation] (lines 189-249) *)

(** Lines 228-243: the lines appended for one resolved cluster. *)
Definition cluster_lines (cl : json) : res (list string) :=
  case_name <- py_get cl "case_name" (JStr "Unknown");;
  date_filed <- py_get cl "date_filed" (JStr "?");;
  cl_id <- py_get cl "id" (JStr "?");;
  url <- py_get cl "absolute_url" (JStr "");;
  cites <- py_get cl "citations" (JList []);;
  cite_text <-
    (if truthy cites
     then cs <- py_iter cites;;
          strs <- mapM cite_fields cs;;
          Ret (join ", " strs)
     else Ret "None");;
  Ret ([ nl ++ "Case: " ++ py_str case_name;
         "Date Filed: " ++ py_str date_filed;
         "Citations: " ++ cite_text;
         "Cluster ID: " ++ py_str cl_id ]
       +++ (if truthy url then [ "URL: " ++ SITE ++ py_str url ] else [])).

(** Lines 213-247: the lines appended for one lookup entry. *)
Definition entry_lines (item : json) : res (list string) :=
  cite_str <- py_get item "citation" (JStr "?");;
  normalized <- py_get item "normalized_citations" (JList []);;
  status <- py_get item "status" (JStr "?");;
  norm_line <-
    ((if truthy normalized
      then xs <- py_iter normalized;;
           strs <- mapM as_str xs;;
           Ret [ "Normalized: " ++ join ", " strs ]
      else Ret []) : res (list string));;
  clusters <- py_get item "clusters" JNull;;
  found <-
    ((if truthy clusters && eq_int status 200
      then cls <- match clusters with
                  | JDict _ => Ret [clusters]
                  | _ => py_iter clusters
                  end;;
           ls <- mapM cluster_lines cls;;
           Ret (List.concat ls)
      else if eq_int status 404
           then Ret [ "No matching case found for this citation." ]
           else Ret []) : res (list string));;
  Ret ([ "Citation: " ++ py_str cite_str ] +++ norm_line
       +++ [ "Status: " ++ py_str status ] +++ found +++ [ "" ]).

(** Lines 208-249: what follows the [isinstance(data, str)] test. *)
Definition format_lookup (citation : string) (data : json) : res string :=
  if negb (truthy data)
  then Ret ("No cases found for citation: " ++ citation)
  else
    items <- py_iter data;;
    ls <- mapM entry_lines items;;
    Ret (py_strip (join nl (List.concat ls))).

Definition lookup_request (citation : string) : Request :=
  mkRequest "POST" (BASE_V3 ++ "/citation-lookup/") None (Some [("text", JStr citation)]).

Definition lookup_citation (citation : string) : IO string :=
  data <~ api_request (lookup_request citation);;
  pass_or_format data (format_lookup citation).

(** *** [get_case_text] (lines 283-400) *)

Definition cluster_request (cluster_id : Z) : Request :=
  mkRequest "GET" (BASE_V3 ++ "/clusters/" ++ str_of_Z cluster_id ++ "/") None None.

Definition opinion_request (opinion_id : Z) : Request :=
  mkRequest "GET" (BASE_V3 ++ "/opinions/" ++ str_of_Z opinion_id ++ "/") None None.

(** What the tool knows once the opinion id is settled: [case_name],
    [date_filed], [case_url] and [opinion_id]. *)
Record Resolved : Type := mkResolved
  { case_name : json;
    date_filed : json;
    case_url : json;
    resolved_id : Z }.

(** [sub_opinions[0] if isinstance(sub_opinions[0], str) else ""] (line 330). *)
Definition url_of (first : json) : string :=
  match first with JStr s => s | _ => "" end.

(** Lines 321-335: the cluster payload gives the metadata and the opinion
    id; [inl] is an early [return] of an error string. *)
Definition read_cluster (cluster_id : Z) (cluster_data : json)
  : res (string + Resolved) :=
  case_name <- py_get cluster_data "case_name" (JStr "Unknown");;
  date_filed <- py_get cluster_data "date_filed" (JStr "?");;
  case_url <- py_get cluster_data "absolute_url" (JStr "");;
  sub_opinions <- py_get cluster_data "sub_opinions" (JList []);;
  if negb (truthy sub_opinions)
  then Ret (inl ("Error: No opinions found in cluster " ++ str_of_Z cluster_id ++ "."))
  else
    first <- py_first sub_opinions;;
    match re_search_opinion (url_of first) with
    | Some ds => Ret (inr (mkResolved case_name date_filed case_url (int_of_digits ds)))
    | None => Ret (inl "Error: Could not parse opinion ID from cluster data.")
    end.

(** Lines 312-335. *)
Definition resolve_cluster (cluster_id : Z) : IO (string + Resolved) :=
  cluster_data <~ api_request (cluster_request cluster_id);;
  match cluster_data with
  | JStr s => io_ret (inl s)
  | _ => lift (read_cluster cluster_id cluster_data)
  end.

(** The loop of lines 351-363 over the fields still to try. *)
Fixpoint scan_html (opinion_data : json) (fields : list string)
  (text : json) (source : string) : res (json * string) :=
  match fields with
  | [] => Ret (text, source)
  | field :: rest =>
      raw <- py_get opinion_data field (JStr "");;
      if truthy raw
      then match raw with
           | JStr s => Ret (JStr (re_sub_tags s), field)
           | _ => Raise TypeError
           end
      else scan_html opinion_data rest text source
  end.

(** Lines 347-363: the variables [text] and [source] after the loop. *)
Definition opinion_text (opinion_data : json) : res (json * string) :=
  text <- py_get opinion_data "plain_text" (JStr "");;
  if negb (truthy text)
  then scan_html opinion_data html_fields text "plain_text"
  else Ret (text, "plain_text").

(** Lines 394-398. *)
Definition truncation_notice (max_characters : Z) (case_url : json) : string :=
  let full_url := if truthy case_url then SITE ++ py_str case_url else "" in
  nl ++ "[Truncated at " ++ format_thousands max_characters
     ++ " characters. Full opinion: " ++ full_url ++ "]".

(** Lines 378-390: the lines that precede the opinion text. *)
Definition report_head (r : Resolved) (author op_type : json) (source : string)
  : list string :=
  (if ne_str (case_name r) "Unknown" then [ "Case: " ++ py_str (case_name r) ] else [])
  +++ (if ne_str (date_filed r) "?" then [ "Date: " ++ py_str (date_filed r) ] else [])
  +++ (if truthy author then [ "Author: " ++ py_str author ] else [])
  +++ (if truthy op_type then [ "Opinion Type: " ++ py_str op_type ] else [])
  +++ [ "Text Source: " ++ source;
        "Opinion ID: " ++ str_of_Z (resolved_id r);
        "";
        "--- OPINION TEXT ---" ].

(** Lines 346-400: from the opinion payload to the tool's result.  A
    truthy [text] that is not a [str] makes [len], the slice or the final
    [join] raise. *)
Definition opinion_report (r : Resolved) (max_characters : Z) (opinion_data : json)
  : res string :=
  ts <- opinion_text opinion_data;;
  let (text, source) := ts : json * string in
  if negb (truthy text)
  then Ret ("Error: No text content available for opinion "
            ++ str_of_Z (resolved_id r) ++ ".")
  else
    author <- py_get opinion_data "author_str" (JStr "");;
    op_type <- py_get opinion_data "type" (JStr "");;
    match text with
    | JStr t =>
        let truncated := (Z.of_nat (String.length t) >? max_characters)%Z in
        let t' := if truncated then slice_to t max_characters else t in
        Ret (join nl (report_head r author op_type source
                      +++ [ t' ]
                      +++ (if truncated
                           then [ truncation_notice max_characters (case_url r) ]
                           else [])))
    | _ => Raise TypeError
    end.

(** What the tool knows when the cluster was not fetched (lines 307-310). *)
Definition unresolved (opinion_id : Z) : Resolved :=
  mkResolved (JStr "Unknown") (JStr "?") (JStr "") opinion_id.

Definition get_case_text (cluster_id opinion_id max_characters : Z) : IO string :=
  if ((cluster_id =? 0) && (opinion_id =? 0))%Z
  then io_ret "Error: Provide either cluster_id or opinion_id."
  else
    resolved <~
      (if (opinion_id =? 0)%Z
       then resolve_cluster cluster_id
       else io_ret (inr (unresolved opinion_id)));;
    match resolved with
    | inl error => io_ret error
    | inr r =>
        opinion_data <~ api_request (opinion_request (resolved_id r));;
        pass_or_format opinion_data (opinion_report r max_characters)
    end.

(** ** Vocabulary of the properties *)

(** The configuration error of line 72. *)
Definition NO_TOKEN : string :=
  "Error: COURTLISTENER_API_TOKEN environment variable is not set.".

(** The first ten characters tell the six error messages of lines 80-89
    apart. *)
Definition error_tag (s : string) : string := substring 0 10 s.

(** The limit of line 149. *)
Definition clamp_limit (limit : Z) : Z := Z.min (Z.max limit 1) 20.

(** [isinstance(v, dict)] *)
Definition is_dict (v : json) : bool :=
  match v with JDict _ => true | _ => false end.

(** The [citations] value of a result formats without an exception: when it
    is a list that starts with an object, every member is an object. *)
Definition cites_ok (v : json) : bool :=
  match py_or v (JList []) with
  | JList (JDict c :: l) => forallb is_dict l
  | _ => true
  end.

(** A search result that [format_case] can format: an object whose snippet,
    when there is one, is a string, and whose citations are [cites_ok]. *)
Definition case_ok (c : json) : bool :=
  match c with
  | JDict d => is_str (get_or d "snippet" (JStr "N/A"))
               && cites_ok (get_or d "citations" JNull)
  | _ => false
  end.

(** The code points below 256 that [str.strip] removes. *)
Definition WHITESPACE : list nat := [9; 10; 11; 12; 13; 28; 29; 30; 31; 32; 133; 160]%nat.

(** Every character of [s] is whitespace. *)
Definition all_space (s : string) : bool := forallb is_space (list_ascii_of_string s).

(** The first character of [s] is whitespace. *)
Definition starts_with_space (s : string) : bool :=
  match s with
  | String c _ => is_space c
  | EmptyString => false
  end.

(** The last character of [s] is whitespace. *)
Fixpoint ends_with_space (s : string) : bool :=
  match s with
  | EmptyString => false
  | String c EmptyString => is_space c
  | String _ r => ends_with_space r
  end.

(** [stripped] is [raw] without the whitespace at its two ends: what was
    cut off is whitespace only, and what is left neither starts nor ends
    with whitespace. *)
Definition is_strip_of (raw stripped : string) : Prop :=
  exists l r,
    raw = l ++ stripped ++ r
    /\ all_space l = true
    /\ all_space r = true
    /\ starts_with_space stripped = false
    /\ ends_with_space stripped = false.

(** One structured citation before line 107 strips it. *)
Definition render_fields (c : dict) : string :=
  py_str (get_or c "volume" (JStr "")) ++ " "
  ++ py_str (get_or c "reporter" (JStr "")) ++ " "
  ++ py_str (get_or c "page" (JStr "")).

(** One structured citation, as line 107 renders it. *)
Definition strip_fields (c : dict) : string :=
  py_strip (py_str (get_or c "volume" (JStr "")) ++ " "
            ++ py_str (get_or c "reporter" (JStr "")) ++ " "
            ++ py_str (get_or c "page" (JStr ""))).

(** A field that the extraction passes over: absent, or falsy. *)
Definition field_empty (d : dict) (field : string) : Prop :=
  truthy (get_or d field (JStr "")) = false.

(** [s] holds a [">"]. *)
Fixpoint has_gt (s : string) : bool :=
  match s with
  | EmptyString => false
  | String c r => Ascii.eqb c ">" || has_gt r
  end.

(** The pattern [<[^>]+>] matches at the head of [s]. *)
Definition tag_at (s : string) : bool :=
  match s with
  | String c (String c' r) => Ascii.eqb c "<" && negb (Ascii.eqb c' ">") && has_gt r
  | _ => false
  end.

(** The pattern [<[^>]+>] matches somewhere in [s]. *)
Fixpoint has_tag (s : string) : bool :=
  match s with
  | EmptyString => false
  | String _ r => tag_at s || has_tag r
  end.

(** [text] cut to [max_characters], as lines 374-376 do. *)
Definition clip (t : string) (max_characters : Z) : string :=
  if (Z.of_nat (String.length t) >? max_characters)%Z
  then slice_to t max_characters
  else t.

(** The error of line 366. *)
Definition no_text_error (opinion_id : Z) : string :=
  "Error: No text content available for opinion " ++ str_of_Z opinion_id ++ ".".

Definition all_digits (ds : string) : bool :=
  forallb is_digit (list_ascii_of_string ds).

(** The reading of a structured citation that leaves no excess whitespace
    between the fields: the fields that are not empty, one space apart. *)
Definition fields_one_space_apart (volume reporter page : string) : string :=
  join " " (filter (fun s => negb (String.eqb s "")) [volume; reporter; page]).

(** The URL lies under the REST root of the CourtListener site. *)
Definition api_url (u : string) : bool := prefix (SITE ++ "/api/rest/") u.

(** [s] with its commas taken out. *)
Definition remove_commas (s : string) : string :=
  string_of_list_ascii
    (filter (fun c => negb (Ascii.eqb c ",")) (list_ascii_of_string s)).

(** [s] holds a ["<"]. *)
Fixpoint has_lt (s : string) : bool :=
  match s with
  | EmptyString => false
  | String c r => Ascii.eqb c "<" || has_lt r
  end.

(** [s] holds no ["/"] that is followed by an ["o"]. *)
Fixpoint no_slash_o (s : string) : bool :=
  match s with
  | EmptyString => true
  | String c r =>
      negb (Ascii.eqb c "/" && match r with
                               | String c' _ => Ascii.eqb c' "o"
                               | EmptyString => false
                               end)
      && no_slash_o r
  end.

(** The requests one call of [get_case_text] can add to the log. *)
Definition case_text_requests (cluster_id : Z) (new : list Request) : Prop :=
  new = []
  \/ new = [cluster_request cluster_id]
  \/ (exists id, new = [opinion_request id])
  \/ (exists id, new = [cluster_request cluster_id; opinion_request id]).

(** [tool], whose one request is [req], hands on what the gateway gave it
    for [req]: an error string as its result, an exception as it is. *)
Definition passes_gateway_result (tool : IO string) (req : Request)
  (log : list Request) : Prop :=
  forall log',
    (forall s, api_request req log = (Ret (JStr s), log') -> tool log = (Ret s, log'))
    /\ (forall e, api_request req log = (Raise e, log') -> tool log = (Raise e, log')).

(** [tool] adds at most [bound] requests to the log, all of them to the
    REST root. *)
Definition issues_at_most (bound : nat) (tool : IO string) (log : list Request) : Prop :=
  exists new,
    snd (tool log) = log +++ new
    /\ (List.length new <= bound)%nat
    /\ Forall (fun r => api_url (req_url r) = true) new.

(** ** Sample payloads and a sample client *)

Definition roe_cluster : dict :=
  [ ("case_name", JStr "Roe v. Wade");
    ("date_filed", JStr "1973-01-22");
    ("absolute_url", JStr "/opinion/108713/roe-v-wade/");
    ("sub_opinions", JList [JStr "https://x/opinions/987/"]) ].

Definition roe_opinion : dict :=
  [ ("plain_text", JStr "");
    ("html_with_citations", JStr "<p>The judgment is <b>affirmed</b>.</p>");
    ("author_str", JStr "Blackmun") ].

Definition plain_opinion : dict :=
  [ ("plain_text", JStr "It is so ordered."); ("html", JStr "<p>ignored</p>") ].

Definition tags_only_opinion : dict :=
  [ ("html_with_citations", JStr "<br>"); ("html", JStr "The judgment is affirmed.") ].

Definition gap_citation : dict := [ ("volume", JStr "410"); ("page", JStr "113") ].

Definition full_citation : dict :=
  [ ("volume", JNum 410); ("reporter", JStr "U.S."); ("page", JStr "113") ].

Definition sample_cases : list json :=
  [ JDict [ ("caseName", JStr "Roe v. Wade"); ("court", JStr "scotus");
            ("citations", JList [JDict full_citation]);
            ("snippet", JStr "right of <mark>privacy</mark>");
            ("cluster_id", JNum 12345) ];
    JDict [ ("caseName", JStr "Doe v. Bolton");
            ("citations", JList [JStr "410 U.S. 179"; JStr "93 S. Ct. 739"]) ] ].

Definition sample_search : dict :=
  [ ("count", JNum 2); ("results", JList sample_cases) ].

Definition not_found_entry : dict :=
  [ ("citation", JStr "410 U.S. 113");
    ("normalized_citations", JList [JStr "410 U.S. 113"]);
    ("status", JNum 404) ].

(** A client that knows one cluster, one opinion, one search page and one
    lookup answer, and answers 500 to everything else. *)
Definition sample_transport : list Request -> Request -> Outcome :=
  fun _ req =>
    if String.eqb (req_url req) (req_url (cluster_request 12345))
    then Response 200 "" (Some (JDict roe_cluster))
    else if String.eqb (req_url req) (req_url (opinion_request 987))
    then Response 200 "" (Some (JDict roe_opinion))
    else if String.eqb (req_url req) (BASE_V4 ++ "/search/")
    then Response 200 "" (Some (JDict sample_search))
    else if String.eqb (req_url req) (BASE_V3 ++ "/citation-lookup/")
    then Response 200 "" (Some (JList [JDict not_found_entry]))
    else Response 500 "Internal Server Error" None.

(** A client whose every answer is an empty JSON list. *)
Definition empty_transport : list Request -> Request -> Outcome :=
  fun _ _ => Response 200 "[]" (Some (JList [])).

(** An entry for a citation that several cases match. *)
Definition ambiguous_entry : dict :=
  [ ("citation", JStr "1 U.S. 1"); ("status", JNum 300) ].

(** An entry whose status text ends with a no-break space (code point
    160). *)
Definition nbsp_entry : dict :=
  [ ("citation", JStr "x"); ("status", JStr ("ok" ++ String "160"%char "")) ].

(** ** Properties *)

(** *** The gateway *)

Lemma api_request_no_token (req : Request) (log : list Request) :
  API_TOKEN = "" -> api_request req log = (Ret (JStr NO_TOKEN), log).
Proof.
  intros H. unfold api_request. rewrite H. reflexivity.
Qed.

Lemma api_request_log (req : Request) (log : list Request) :
  API_TOKEN <> "" -> snd (api_request req log) = log +++ [req].
Proof.
  intros H. unfold api_request.
  apply String.eqb_neq in H. rewrite H.
  destruct (transport log req) as [code text body | | msg | e]; try reflexivity.
  destruct (is_success code); [destruct body|]; reflexivity.
Qed.

Lemma api_request_ok (req : Request) (log : list Request)
  (code : Z) (text : string) (j : json) :
  API_TOKEN <> "" ->
  transport log req = Response code text (Some j) ->
  is_success code = true ->
  api_request req log = (Ret j, log +++ [req]).
Proof.
  intros Htok Ht Hs. apply String.eqb_neq in Htok.
  unfold api_request. now rewrite Htok, Ht, Hs.
Qed.

Lemma pass_or_format_log (data : json) (fmt : json -> res string) (log : list Request) :
  snd (pass_or_format data fmt log) = log.
Proof.
  destruct data; reflexivity.
Qed.

(** A search tool is one request followed by formatting. *)
Lemma search_tool_no_token (params : dict) (fmt : json -> res string)
  (log : list Request) :
  API_TOKEN = "" ->
  io_bind (api_request (search_request params)) (fun data => pass_or_format data fmt) log
  = (Ret NO_TOKEN, log).
Proof.
  intros H. unfold io_bind. rewrite api_request_no_token by assumption. reflexivity.
Qed.

Lemma search_tool_log (params : dict) (fmt : json -> res string) (log : list Request) :
  API_TOKEN <> "" ->
  snd (io_bind (api_request (search_request params))
               (fun data => pass_or_format data fmt) log)
  = log +++ [search_request params].
Proof.
  intros H. unfold io_bind.
  pose proof (api_request_log (search_request params) log H) as Hlog.
  destruct (api_request (search_request params) log) as [[data | e] log']; simpl in *.
  - rewrite pass_or_format_log. assumption.
  - assumption.
Qed.

(** C1, as amended.  With no token, every tool call leaves the request log
    as it found it, so no request reaches the client; the four search and
    lookup tools return the configuration error, and so does
    [get_case_text] unless both of its ids are 0, where the argument check
    of line 301 answers first. *)
Theorem no_token_no_request
  (query court filed_after filed_before order_by citation : string)
  (limit cluster_id opinion_id max_characters : Z) (log : list Request) :
  API_TOKEN = "" ->
  search_cases query court filed_after filed_before order_by limit log
    = (Ret NO_TOKEN, log)
  /\ semantic_search query court filed_after filed_before limit log
    = (Ret NO_TOKEN, log)
  /\ find_citing_cases cluster_id court filed_after filed_before order_by limit log
    = (Ret NO_TOKEN, log)
  /\ lookup_citation citation log = (Ret NO_TOKEN, log)
  /\ get_case_text cluster_id opinion_id max_characters log
    = (Ret (if ((cluster_id =? 0) && (opinion_id =? 0))%Z
            then "Error: Provide either cluster_id or opinion_id."
            else NO_TOKEN), log).
Proof.
  intros H.
  repeat split.
  - apply search_tool_no_token; assumption.
  - apply search_tool_no_token; assumption.
  - apply search_tool_no_token; assumption.
  - unfold lookup_citation, io_bind.
    rewrite api_request_no_token by assumption. reflexivity.
  - unfold get_case_text.
    destruct (cluster_id =? 0)%Z; destruct (opinion_id =? 0)%Z eqn:Ho; simpl;
      try reflexivity;
      unfold io_bind, resolve_cluster, io_bind, io_ret; simpl;
      rewrite api_request_no_token by assumption; reflexivity.
Qed.

Lemma substring_0_length (n : nat) (s : string) :
  (String.length (substring 0 n s) <= n)%nat.
Proof.
  revert s. induction n as [|n IH]; intros [|c s]; simpl; try lia.
  specialize (IH s). lia.
Qed.

Lemma substring_0_prefix (n : nat) (s : string) :
  prefix (substring 0 n s) s = true.
Proof.
  revert s. induction n as [|n IH]; intros [|c s]; simpl; try reflexivity.
  destruct (ascii_dec c c) as [_|Hc]; [apply IH | contradiction].
Qed.

Lemma status_error_cases (code : Z) (text : string) :
  (code = 401 ->
   status_error code text = "Error: Invalid API token. Check COURTLISTENER_API_TOKEN.")
  /\ (code = 429 ->
      status_error code text
      = "Error: Rate limit exceeded. CourtListener allows 5,000 requests/day.")
  /\ (code = 404 -> status_error code text = "Error: Resource not found.")
  /\ (code <> 401 -> code <> 429 -> code <> 404 ->
      status_error code text
      = "Error: HTTP " ++ str_of_Z code ++ " — " ++ substring 0 300 text).
Proof.
  unfold status_error. repeat split.
  - intros ->. reflexivity.
  - intros ->. reflexivity.
  - intros ->. reflexivity.
  - intros H1 H2 H3.
    apply Z.eqb_neq in H1, H2, H3. rewrite H1, H2, H3. reflexivity.
Qed.

(** C5.  With a token set, a response whose status is not 2xx is turned
    into the error string of its code: 401, 429 (with the 5,000 per day
    quota) and 404 have their own message, every other code gives
    ["Error: HTTP <code> — "] followed by the first 300 characters of the
    body at most; a timeout and a connection failure have their own
    messages, the latter carrying the cause.  The six messages differ
    pairwise, and from the configuration error as well. *)
Theorem api_request_errors (req : Request) (log : list Request) :
  API_TOKEN <> "" ->
  (forall code text body,
      transport log req = Response code text body ->
      is_success code = false ->
      api_request req log = (Ret (JStr (status_error code text)), log +++ [req])
      /\ (code = 401 ->
          status_error code text
          = "Error: Invalid API token. Check COURTLISTENER_API_TOKEN.")
      /\ (code = 429 ->
          status_error code text
          = "Error: Rate limit exceeded. CourtListener allows 5,000 requests/day.")
      /\ (code = 404 -> status_error code text = "Error: Resource not found.")
      /\ (code <> 401 -> code <> 429 -> code <> 404 ->
          status_error code text
          = "Error: HTTP " ++ str_of_Z code ++ " — " ++ substring 0 300 text
          /\ (String.length (substring 0 300 text) <= 300)%nat
          /\ prefix (substring 0 300 text) text = true))
  /\ (transport log req = TimeoutException ->
      api_request req log
      = (Ret (JStr "Error: Request timed out after 30 seconds."), log +++ [req]))
  /\ (forall msg,
         transport log req = RequestError msg ->
         api_request req log
         = (Ret (JStr ("Error: Connection failed — " ++ msg)), log +++ [req]))
  /\ (forall code text msg,
         NoDup [ NO_TOKEN;
                 status_error 401 text;
                 status_error 429 text;
                 status_error 404 text;
                 "Error: HTTP " ++ str_of_Z code ++ " — " ++ substring 0 300 text;
                 "Error: Request timed out after 30 seconds.";
                 "Error: Connection failed — " ++ msg ]).
Proof using API_TOKEN transport.
  intros Htok. apply String.eqb_neq in Htok.
  split; [|split; [|split]].
  - intros code text body Ht Hs.
    split.
    + unfold api_request. rewrite Htok, Ht, Hs. reflexivity.
    + destruct (status_error_cases code text) as (H1 & H2 & H3 & H4).
      repeat split; auto using substring_0_length, substring_0_prefix.
  - intros Ht. unfold api_request. rewrite Htok, Ht. reflexivity.
  - intros msg Ht. unfold api_request. rewrite Htok, Ht. reflexivity.
  - intros code text msg. apply (NoDup_map_inv error_tag). cbn.
    repeat constructor; intros H; cbn in H;
      repeat (destruct H as [H|H]; [discriminate H|]); exact H.
Qed.

(** *** The limit sent upstream *)

Lemma search_params_limit
  (query court filed_after filed_before order_by : string) (limit : Z) :
  lookup "limit" (_search_params query court filed_after filed_before order_by limit)
  = Some (JNum (clamp_limit limit)).
Proof.
  unfold _search_params.
  destruct (String.eqb court ""), (String.eqb filed_after ""),
    (String.eqb filed_before ""); reflexivity.
Qed.

Lemma clamp_limit_spec (limit : Z) :
  1 <= clamp_limit limit <= 20
  /\ (limit < 1 -> clamp_limit limit = 1)
  /\ (20 < limit -> clamp_limit limit = 20)
  /\ (1 <= limit <= 20 -> clamp_limit limit = limit).
Proof.
  unfold clamp_limit. lia.
Qed.

(** C8.  With a token set, each of [search_cases], [semantic_search] and
    [find_citing_cases] issues exactly one request: a GET of
    [https://www.courtlistener.com/api/rest/v4/search/] whose query
    parameters are those built by [_search_params].  The [limit] among
    those parameters is the caller's limit clamped into [1, 20]: 1 below
    the interval, 20 above it, the value itself inside it; a limit of 500
    is sent as 20. *)
Theorem limit_clamped
  (query court filed_after filed_before order_by : string)
  (limit cluster_id : Z) (log : list Request) :
  let sent := fun params =>
    mkRequest "GET" "https://www.courtlistener.com/api/rest/v4/search/"
      (Some params) None in
  API_TOKEN <> "" ->
  snd (search_cases query court filed_after filed_before order_by limit log)
  = log +++ [sent (_search_params query court filed_after filed_before order_by limit)]
  /\ snd (semantic_search query court filed_after filed_before limit log)
     = log +++ [sent (_search_params query court filed_after filed_before
                        "score desc" limit)]
  /\ snd (find_citing_cases cluster_id court filed_after filed_before order_by
            limit log)
     = log +++ [sent (_search_params ("cites:(" ++ str_of_Z cluster_id ++ ")") court
                        filed_after filed_before order_by limit)]
  /\ (forall q c fa fb ob,
         req_params (sent (_search_params q c fa fb ob limit))
         = Some (_search_params q c fa fb ob limit)
         /\ lookup "limit" (_search_params q c fa fb ob limit)
            = Some (JNum (clamp_limit limit)))
  /\ clamp_limit limit = Z.min (Z.max limit 1) 20
  /\ 1 <= clamp_limit limit <= 20
  /\ (limit < 1 -> clamp_limit limit = 1)
  /\ (20 < limit -> clamp_limit limit = 20)
  /\ (1 <= limit <= 20 -> clamp_limit limit = limit)
  /\ clamp_limit 500 = 20.
Proof.
  intros sent Htok.
  change sent with search_request.
  split; [|split; [|split]].
  - apply search_tool_log; assumption.
  - apply search_tool_log; assumption.
  - apply search_tool_log; assumption.
  - split; [intros; split; [reflexivity | apply search_params_limit]|].
    pose proof (clamp_limit_spec limit) as (H1 & H2 & H3 & H4).
    repeat split; auto; lia.
Qed.

(** *** Search-result formatting *)

Lemma str_or_nonempty (a b : string) : b <> "" -> str_or a b <> "".
Proof.
  intros Hb. unfold str_or.
  destruct (String.eqb a "") eqn:E; [assumption | now apply String.eqb_neq].
Qed.

Lemma lstrip_idem (s : string) : lstrip (lstrip s) = lstrip s.
Proof.
  induction s as [|c s IH]; simpl; [reflexivity|].
  destruct (is_space c) eqn:E; [assumption | simpl; rewrite E; reflexivity].
Qed.

Lemma rstrip_tail (c : ascii) (s : string) :
  rstrip (String c s) = String c s -> rstrip s = s.
Proof.
  simpl. destruct (rstrip s) as [|c' s'] eqn:E.
  - destruct (is_space c); intros H; [discriminate | now inversion H].
  - intros H. now inversion H.
Qed.

Lemma rstrip_lstrip (s : string) : rstrip s = s -> rstrip (lstrip s) = lstrip s.
Proof.
  induction s as [|c s IH]; intros H; [reflexivity|].
  simpl lstrip. destruct (is_space c); [|assumption].
  apply IH. exact (rstrip_tail c s H).
Qed.

Lemma rstrip_idem (s : string) : rstrip (rstrip s) = rstrip s.
Proof.
  induction s as [|c s IH]; simpl; [reflexivity|].
  destruct (rstrip s) as [|c' s'] eqn:E.
  - destruct (is_space c) eqn:Ec; simpl; [reflexivity | rewrite Ec; reflexivity].
  - change (rstrip (String c (String c' s')) = String c (String c' s')).
    simpl in IH |- *. simpl. rewrite IH. reflexivity.
Qed.

(** [strip] leaves whitespace at neither end. *)
Lemma py_strip_ends (s : string) :
  lstrip (py_strip s) = py_strip s /\ rstrip (py_strip s) = py_strip s.
Proof.
  unfold py_strip. split.
  - apply lstrip_idem.
  - apply rstrip_lstrip, rstrip_idem.
Qed.

(** The whitespace of [strip] is the twelve code points of [WHITESPACE]. *)
Lemma is_space_spec (c : ascii) :
  is_space c = true <-> In (nat_of_ascii c) WHITESPACE.
Proof.
  unfold is_space, WHITESPACE. cbn [In].
  rewrite !orb_true_iff, !andb_true_iff, !Nat.leb_le, !Nat.eqb_eq. lia.
Qed.

Lemma lstrip_spec (s : string) :
  exists l,
    s = l ++ lstrip s /\ all_space l = true /\ starts_with_space (lstrip s) = false.
Proof.
  induction s as [|c s (l & Hs & Hl & Hst)].
  - exists "". repeat split.
  - simpl lstrip. destruct (is_space c) eqn:Ec.
    + exists (String c l). repeat split.
      * simpl. now rewrite <- Hs.
      * unfold all_space in *. simpl. now rewrite Ec.
      * exact Hst.
    + exists "". repeat split. exact Ec.
Qed.

Lemma rstrip_spec (s : string) :
  exists r,
    s = rstrip s ++ r /\ all_space r = true /\ ends_with_space (rstrip s) = false.
Proof.
  induction s as [|c s (r & Hs & Hr & Hend)].
  - exists "". repeat split.
  - simpl rstrip. destruct (rstrip s) as [|c' s'] eqn:E.
    + destruct (is_space c) eqn:Ec.
      * exists (String c r). repeat split.
        -- simpl in Hs |- *. now rewrite <- Hs.
        -- unfold all_space in *. simpl. now rewrite Ec.
      * exists r. repeat split; [simpl in Hs |- *; now rewrite <- Hs | exact Hr | exact Ec].
    + exists r. repeat split; [simpl in Hs |- *; now rewrite <- Hs | exact Hr | exact Hend].
Qed.

Lemma ends_with_space_lstrip (s : string) :
  ends_with_space s = false -> ends_with_space (lstrip s) = false.
Proof.
  induction s as [|c s IH]; intros H; [reflexivity|].
  simpl lstrip. destruct (is_space c) eqn:Ec; [|exact H].
  apply IH. destruct s as [|c' s']; [reflexivity | exact H].
Qed.

Lemma append_assoc_strip (a b c : string) : (a ++ b) ++ c = a ++ b ++ c.
Proof.
  induction a as [|x a IH]; simpl; [reflexivity | now rewrite IH].
Qed.

(** [py_strip] cuts off whitespace only, and all of it at both ends. *)
Lemma py_strip_spec (s : string) : is_strip_of s (py_strip s).
Proof.
  unfold is_strip_of, py_strip.
  destruct (rstrip_spec s) as (r & Hs & Hr & Hend).
  destruct (lstrip_spec (rstrip s)) as (l & Hl & Hla & Hst).
  exists l, r. repeat split; try assumption.
  - rewrite <- append_assoc_strip, <- Hl. exact Hs.
  - now apply ends_with_space_lstrip.
Qed.

Lemma mapM_cite_fields (cs : list dict) :
  mapM cite_fields (map JDict cs) = Ret (map strip_fields cs).
Proof.
  induction cs as [|c cs IH]; simpl; [reflexivity|].
  rewrite IH. reflexivity.
Qed.

Lemma map_py_str_strings (ss : list string) : map py_str (map JStr ss) = ss.
Proof.
  induction ss as [|x ss IH]; simpl; [reflexivity | now rewrite IH].
Qed.

Lemma citation_text_nonempty (case : json) (s : string) :
  citation_text case = Ret s -> s <> "".
Proof.
  assert (Hn : "None" <> "") by discriminate.
  unfold citation_text. destruct case; simpl; try discriminate.
  destruct (py_or (get_or d "citations" JNull) (JList [])) as [| | | | l |];
    simpl; try (intros H; inversion H; now apply str_or_nonempty).
  destruct l as [|[] l']; simpl;
    try (intros H; inversion H; now apply str_or_nonempty).
  destruct (mapM cite_fields l'); simpl; try discriminate.
  intros H; inversion H; now apply str_or_nonempty.
Qed.

(** C7, as amended.  The citation string of a search result is never
    empty: it is the comma-joined list, or the literal ["None"] when that
    is empty.  A list of plain strings is joined unchanged.  A list of
    volume/reporter/page objects is joined after each object is rendered as
    ["volume reporter page"] and stripped of the whitespace at its two ends
    only; this holds whatever fields the objects have or lack.  A result
    with no citations gives ["None"].  What is stripped is fixed by the
    statement: the stripped citation is the rendering less a run of
    whitespace at each end, it neither starts nor ends with whitespace, and
    whitespace is the code points 9-13, 28-32, 133 and 160. *)
Theorem citation_text_joined (d : dict) :
  (forall s, citation_text (JDict d) = Ret s -> s <> "")
  /\ (truthy (get_or d "citations" JNull) = false ->
      citation_text (JDict d) = Ret "None")
  /\ (forall ss,
         ss <> [] ->
         lookup "citations" d = Some (JList (map JStr ss)) ->
         citation_text (JDict d) = Ret (str_or (join ", " ss) "None"))
  /\ (forall cs,
         cs <> [] ->
         lookup "citations" d = Some (JList (map JDict cs)) ->
         citation_text (JDict d)
         = Ret (str_or (join ", " (map strip_fields cs)) "None")
         /\ Forall (fun c => lstrip (strip_fields c) = strip_fields c
                             /\ rstrip (strip_fields c) = strip_fields c) cs
         /\ Forall (fun c => is_strip_of (render_fields c) (strip_fields c)) cs)
  /\ (forall c, is_space c = true <-> In (nat_of_ascii c) WHITESPACE).
Proof.
  split; [|split; [|split; [|split]]]; [| | | |exact is_space_spec].
  - intros s. apply citation_text_nonempty.
  - intros H. unfold citation_text. simpl. unfold py_or. rewrite H. reflexivity.
  - intros ss Hne Hl. unfold citation_text. simpl.
    unfold get_or. rewrite Hl.
    destruct ss as [|x ss]; [contradiction|].
    unfold py_or. simpl. rewrite map_py_str_strings. reflexivity.
  - intros cs Hne Hl. split.
    + unfold citation_text. simpl. unfold get_or. rewrite Hl.
      destruct cs as [|c cs]; [contradiction|].
      unfold py_or. simpl truthy. cbv iota.
      change (JDict c :: map JDict cs) with (map JDict (c :: cs)).
      cbn -[strip_fields mapM map join str_or].
      rewrite mapM_cite_fields. reflexivity.
    + split.
      * apply Forall_forall. intros c _. apply py_strip_ends.
      * apply Forall_forall. intros c _. apply py_strip_spec.
Qed.

Lemma mapM_total {A B : Type} (f : A -> res B) (l : list A) :
  Forall (fun a => exists b, f a = Ret b) l -> exists bs, mapM f l = Ret bs.
Proof.
  induction 1 as [|a l [b Hb] _ [bs Hbs]]; simpl.
  - now exists [].
  - rewrite Hb, Hbs. now eexists.
Qed.

Lemma citation_text_total (d : dict) :
  cites_ok (get_or d "citations" JNull) = true ->
  exists s, citation_text (JDict d) = Ret s.
Proof.
  unfold cites_ok, citation_text. simpl.
  destruct (py_or (get_or d "citations" JNull) (JList [])) as [| | | | l |];
    simpl; try (now eexists).
  destruct l as [|[] l']; simpl; try (now eexists).
  intros Hall.
  destruct (mapM_total cite_fields l') as [bs Hbs].
  - rewrite forallb_forall in Hall. apply Forall_forall. intros c Hc.
    specialize (Hall c Hc). destruct c; try discriminate. simpl. now eexists.
  - rewrite Hbs. simpl. now eexists.
Qed.

(** A well-formed result is formatted, and its block opens with its number. *)
Lemma format_case_numbered (i : Z) (c : json) :
  case_ok c = true ->
  exists rest, format_case i c = Ret (str_of_Z i ++ ". " ++ rest).
Proof.
  destruct c as [| | | | |d]; simpl; try discriminate.
  intros H. apply andb_prop in H as [Hs Hc].
  destruct (citation_text_total d Hc) as [ct Hct].
  unfold format_case. rewrite Hct. simpl.
  destruct (get_or d "snippet" (JStr "N/A")); try discriminate.
  simpl. eexists. reflexivity.
Qed.

Lemma mapM_enum_numbered (cases : list json) :
  forall i0,
    forallb case_ok cases = true ->
    exists blocks,
      mapM_enum format_case i0 cases = Ret blocks
      /\ List.length blocks = List.length cases
      /\ forall k, (k < List.length cases)%nat ->
           format_case (i0 + Z.of_nat k) (nth k cases JNull) = Ret (nth k blocks "")
           /\ exists rest,
               nth k blocks "" = str_of_Z (i0 + Z.of_nat k) ++ ". " ++ rest.
Proof.
  induction cases as [|c cases IH]; intros i0 Hok.
  - exists []. repeat split; simpl in *; lia.
  - simpl in Hok. apply andb_prop in Hok as [Hc Hrest].
    destruct (format_case_numbered i0 c Hc) as [rest Hfc].
    destruct (IH (i0 + 1) Hrest) as (blocks & Hm & Hlen & Hnth).
    exists ((str_of_Z i0 ++ ". " ++ rest) :: blocks).
    simpl. rewrite Hfc, Hm. repeat split.
    + now rewrite Hlen.
    + destruct k as [|k]; simpl.
      * now rewrite Z.add_0_r.
      * replace (i0 + Z.pos (Pos.of_succ_nat k)) with (i0 + 1 + Z.of_nat k) by lia.
        apply Hnth. simpl in H. lia.
    + destruct k as [|k]; simpl.
      * rewrite Z.add_0_r. now exists rest.
      * replace (i0 + Z.pos (Pos.of_succ_nat k)) with (i0 + 1 + Z.of_nat k) by lia.
        apply Hnth. simpl in H. lia.
Qed.

(** C6.  A payload whose result list is empty formats to
    ["No results found. "] followed by the header, whatever the header.  A
    payload with [N >= 1] well-formed results formats to the header
    annotated with the payload's [count], followed by exactly [N] blocks
    joined by newlines; block [k] (from 0) is [format_case] of result [k]
    and opens with the number [k + 1], so the blocks are numbered 1 to [N]
    in the order of the input. *)
Theorem search_results_format (d : dict) (header : string) :
  (get_or d "results" (JList []) = JList [] ->
   format_search_results (JDict d) header = Ret ("No results found. " ++ header))
  /\ (forall cases,
         cases <> [] ->
         lookup "results" d = Some (JList cases) ->
         forallb case_ok cases = true ->
         exists blocks,
           format_search_results (JDict d) header
           = Ret (join nl ((header ++ " (" ++ py_str (get_or d "count" (JNum 0))
                            ++ " total results)" ++ nl) :: blocks))
           /\ List.length blocks = List.length cases
           /\ forall k, (k < List.length cases)%nat ->
                format_case (1 + Z.of_nat k) (nth k cases JNull)
                = Ret (nth k blocks "")
                /\ exists rest,
                    nth k blocks ""
                    = str_of_Z (1 + Z.of_nat k) ++ ". " ++ rest).
Proof.
  split.
  - intros H. unfold format_search_results. simpl. rewrite H. reflexivity.
  - intros cases Hne Hl Hok.
    destruct (mapM_enum_numbered cases 1 Hok) as (blocks & Hm & Hlen & Hnth).
    exists blocks. repeat split; try assumption; try (now apply Hnth).
    assert (Hres : get_or d "results" (JList []) = JList cases)
      by (unfold get_or; now rewrite Hl).
    unfold format_search_results. cbn [py_get bind_res]. rewrite Hres.
    destruct cases as [|c cases]; [contradiction|].
    cbn [truthy negb py_iter bind_res]. rewrite Hm. reflexivity.
Qed.

(** *** Citation lookup *)

Ltac bind_cases H :=
  repeat match type of H with
         | bind_res ?m _ = _ =>
             let E := fresh "E" in
             destruct m eqn:E; cbn [bind_res] in H; [|discriminate H]
         end.

Lemma mapM_as_str (ns : list string) : mapM as_str (map JStr ns) = Ret ns.
Proof.
  induction ns as [|x ns IH]; simpl; [reflexivity | now rewrite IH].
Qed.

Lemma entry_lines_end (item : json) (l : list string) :
  entry_lines item = Ret l -> exists l', l = l' +++ [""].
Proof.
  intros H. unfold entry_lines in H. bind_cases H.
  injection H as <-.
  match goal with
  | |- exists l', ?x :: ?b +++ ?y :: ?d +++ _ = _ =>
      exists (x :: b +++ y :: d)
  end.
  simpl. now rewrite <- app_assoc.
Qed.

(** C9.  An entry whose [status] is 404 contributes its citation line, its
    normalized citations when it has any, its status line, the line
    ["No matching case found for this citation."] and a closing empty
    line, and nothing else: no case name, date, cluster id or URL.  Every
    entry ends with that empty line, so consecutive entries are a blank
    line apart, and the joined text is stripped, so the output carries no
    whitespace at its end: it is the joined text less a run of whitespace
    at each end, it neither starts nor ends with whitespace, and whitespace
    is the code points 9-13, 28-32, 133 and 160.  With a token set, that
    text is what [lookup_citation] returns, after its one POST to the
    citation-lookup endpoint, for a response that is a list of entries. *)
Theorem lookup_not_found (citation : string) (di : dict) :
  lookup "status" di = Some (JNum 404) ->
  (truthy (get_or di "normalized_citations" (JList [])) = false ->
   entry_lines (JDict di)
   = Ret [ "Citation: " ++ py_str (get_or di "citation" (JStr "?"));
           "Status: 404";
           "No matching case found for this citation.";
           "" ])
  /\ (forall ns,
         ns <> [] ->
         lookup "normalized_citations" di = Some (JList (map JStr ns)) ->
         entry_lines (JDict di)
         = Ret [ "Citation: " ++ py_str (get_or di "citation" (JStr "?"));
                 "Normalized: " ++ join ", " ns;
                 "Status: 404";
                 "No matching case found for this citation.";
                 "" ])
  /\ (forall item l, entry_lines item = Ret l -> exists l', l = l' +++ [""])
  /\ (forall items ls,
         items <> [] ->
         mapM entry_lines items = Ret ls ->
         format_lookup citation (JList items)
         = Ret (py_strip (join nl (List.concat ls)))
         /\ rstrip (py_strip (join nl (List.concat ls)))
            = py_strip (join nl (List.concat ls))
         /\ is_strip_of (join nl (List.concat ls))
              (py_strip (join nl (List.concat ls))))
  /\ (forall log code text items,
         let request :=
           mkRequest "POST" "https://www.courtlistener.com/api/rest/v3/citation-lookup/"
             None (Some [("text", JStr citation)]) in
         API_TOKEN <> "" ->
         transport log request = Response code text (Some (JList items)) ->
         is_success code = true ->
         lookup_citation citation log
         = (format_lookup citation (JList items), log +++ [request]))
  /\ (forall c, is_space c = true <-> In (nat_of_ascii c) WHITESPACE).
Proof.
  intros Hs.
  assert (Hst : get_or di "status" (JStr "?") = JNum 404)
    by (unfold get_or; now rewrite Hs).
  split; [|split; [|split; [|split; [|split]]]]; [| | | | |exact is_space_spec].
  - intros Hn. unfold entry_lines. cbn [py_get bind_res].
    rewrite Hst, Hn. cbn [bind_res].
    change (eq_int (JNum 404) 200) with false.
    rewrite andb_false_r. reflexivity.
  - intros ns Hne Hl.
    assert (Hnz : get_or di "normalized_citations" (JList []) = JList (map JStr ns))
      by (unfold get_or; now rewrite Hl).
    unfold entry_lines. cbn [py_get bind_res].
    rewrite Hst, Hnz.
    destruct ns as [|n ns]; [contradiction|].
    change (map JStr (n :: ns)) with (JStr n :: map JStr ns) at 1.
    cbn [truthy py_iter bind_res].
    rewrite mapM_as_str. cbn [bind_res].
    change (eq_int (JNum 404) 200) with false.
    rewrite andb_false_r. reflexivity.
  - apply entry_lines_end.
  - intros items ls Hne Hm.
    split; [|split; [apply py_strip_ends | apply py_strip_spec]].
    unfold format_lookup.
    destruct items as [|item items]; [contradiction|].
    cbn [truthy negb py_iter bind_res]. rewrite Hm. reflexivity.
  - intros log code text items request Htok Ht Hc.
    change request with (lookup_request citation) in *.
    unfold lookup_citation, io_bind.
    rewrite (api_request_ok _ _ _ _ _ Htok Ht Hc). reflexivity.
Qed.

(** *** Opinion text *)

Lemma has_gt_app (p q : string) : has_gt (p ++ q) = has_gt p || has_gt q.
Proof.
  induction p as [|c p IH]; simpl; [reflexivity|].
  rewrite IH. apply orb_assoc.
Qed.

Lemma no_gt_no_tag (s : string) : has_gt s = false -> has_tag s = false.
Proof.
  induction s as [|c s IH]; simpl; [reflexivity|].
  intros H. apply orb_false_elim in H as [Hc Hs].
  rewrite (IH Hs), orb_false_r.
  destruct s as [|c' r]; [reflexivity|].
  simpl in Hs. apply orb_false_elim in Hs as [_ Hr].
  rewrite Hr. apply andb_false_r.
Qed.

Lemma sub_tags_no_tag (s : string) :
  forall pend,
    match pend with Some p => has_gt p = false | None => True end ->
    has_tag (sub_tags pend s) = false.
Proof.
  induction s as [|c s IH]; intros [p|] Hp; simpl.
  - now apply no_gt_no_tag.
  - reflexivity.
  - destruct (Ascii.eqb c ">") eqn:Ec.
    + destruct (String.eqb p "<").
      * simpl. rewrite (IH None I). now destruct (sub_tags None s).
      * now apply IH.
    + apply IH. rewrite has_gt_app. simpl. now rewrite Hp, Ec.
  - destruct (Ascii.eqb c "<") eqn:Ec.
    + now apply IH.
    + simpl. rewrite (IH None I), orb_false_r.
      destruct (sub_tags None s); [reflexivity|]. now rewrite Ec.
Qed.

(** What [re.sub] returns holds no tag any more. *)
Lemma re_sub_tags_no_tag (s : string) : has_tag (re_sub_tags s) = false.
Proof.
  apply (sub_tags_no_tag s None I).
Qed.

Lemma scan_html_first (d : dict) (text : json) (src : string)
  (pre : list string) (field : string) (post : list string) (raw : string) :
  Forall (field_empty d) pre ->
  lookup field d = Some (JStr raw) ->
  raw <> "" ->
  scan_html (JDict d) (pre +++ field :: post) text src
  = Ret (JStr (re_sub_tags raw), field).
Proof.
  intros Hpre Hl Hraw.
  induction Hpre as [|f pre Hf _ IH]; simpl.
  - unfold get_or. rewrite Hl. simpl.
    apply String.eqb_neq in Hraw. now rewrite Hraw.
  - unfold field_empty in Hf. now rewrite Hf.
Qed.

Lemma scan_html_none (d : dict) (text : json) (src : string) (fields : list string) :
  Forall (field_empty d) fields ->
  scan_html (JDict d) fields text src = Ret (text, src).
Proof.
  induction 1 as [|f fields Hf _ IH]; simpl; [reflexivity|].
  unfold field_empty in Hf. now rewrite Hf.
Qed.

(** The report built from a non-empty extracted text. *)
Lemma opinion_report_text (d : dict) (r : Resolved) (K : Z) (t source : string) :
  opinion_text (JDict d) = Ret (JStr t, source) ->
  t <> "" ->
  opinion_report r K (JDict d)
  = Ret (join nl
           (report_head r (get_or d "author_str" (JStr "")) (get_or d "type" (JStr ""))
              source
            +++ [ clip t K ]
            +++ (if (Z.of_nat (String.length t) >? K)%Z
                 then [ truncation_notice K (case_url r) ]
                 else []))).
Proof.
  intros Ht Hne. unfold opinion_report. rewrite Ht.
  cbn [bind_res truthy]. apply String.eqb_neq in Hne. rewrite Hne.
  cbn [negb py_get bind_res]. unfold clip. reflexivity.
Qed.

Lemma opinion_report_no_text (d : dict) (r : Resolved) (K : Z) (v : json)
  (source : string) :
  opinion_text (JDict d) = Ret (v, source) ->
  truthy v = false ->
  opinion_report r K (JDict d) = Ret (no_text_error (resolved_id r)).
Proof.
  intros Ht Hv. unfold opinion_report. rewrite Ht.
  cbn [bind_res]. rewrite Hv. reflexivity.
Qed.

(** C2, as amended.  A non-empty plain-text field is the text, verbatim,
    whatever the HTML fields hold.  When the plain-text field is empty, the
    text is the first non-empty field of [html_fields] with every tag
    removed, and no tag is left in it; the call reports that text when it
    is not empty, and returns the "no text content" error for the opinion
    id when it is empty.  When every candidate field is empty the call
    returns that same error. *)
Theorem opinion_text_priority (d : dict) (r : Resolved) (K : Z) :
  (forall t,
      lookup "plain_text" d = Some (JStr t) ->
      t <> "" ->
      opinion_text (JDict d) = Ret (JStr t, "plain_text"))
  /\ (forall pre field post raw,
         html_fields = pre +++ field :: post ->
         field_empty d "plain_text" ->
         Forall (field_empty d) pre ->
         lookup field d = Some (JStr raw) ->
         raw <> "" ->
         opinion_text (JDict d) = Ret (JStr (re_sub_tags raw), field)
         /\ has_tag (re_sub_tags raw) = false
         /\ (re_sub_tags raw <> "" ->
             opinion_report r K (JDict d)
             = Ret (join nl
                      (report_head r (get_or d "author_str" (JStr ""))
                         (get_or d "type" (JStr "")) field
                       +++ [ clip (re_sub_tags raw) K ]
                       +++ (if (Z.of_nat (String.length (re_sub_tags raw)) >? K)%Z
                            then [ truncation_notice K (case_url r) ]
                            else []))))
         /\ (re_sub_tags raw = "" ->
             opinion_report r K (JDict d) = Ret (no_text_error (resolved_id r))))
  /\ (field_empty d "plain_text" ->
      Forall (field_empty d) html_fields ->
      opinion_report r K (JDict d) = Ret (no_text_error (resolved_id r))).
Proof.
  split; [|split].
  - intros t Hl Hne. unfold opinion_text. cbn [py_get bind_res].
    unfold get_or. rewrite Hl. simpl.
    apply String.eqb_neq in Hne. now rewrite Hne.
  - intros pre field post raw Hf Hp Hpre Hl Hraw.
    assert (Ht : opinion_text (JDict d) = Ret (JStr (re_sub_tags raw), field)).
    { unfold opinion_text. cbn [py_get bind_res].
      unfold field_empty in Hp. rewrite Hp. cbn [negb].
      rewrite Hf. now apply scan_html_first. }
    split; [exact Ht|]. split; [apply re_sub_tags_no_tag|]. split.
    + intros Hne. now apply opinion_report_text.
    + intros He. apply (opinion_report_no_text d r K _ _ Ht).
      rewrite He. reflexivity.
  - intros Hp Hall.
    apply (opinion_report_no_text d r K (get_or d "plain_text" (JStr "")) "plain_text").
    + unfold opinion_text. cbn [py_get bind_res].
      unfold field_empty in Hp. rewrite Hp. cbn [negb].
      now apply scan_html_none.
    + exact Hp.
Qed.

(** *** Truncation *)

Lemma substring_0_exact (n : nat) (s : string) :
  (n <= String.length s)%nat -> String.length (substring 0 n s) = n.
Proof.
  revert s. induction n as [|n IH]; intros [|c s] H; simpl in *; try lia.
  rewrite IH by lia. reflexivity.
Qed.

Lemma clip_long (t : string) (K : Z) :
  0 <= K ->
  Z.of_nat (String.length t) > K ->
  clip t K = substring 0 (Z.to_nat K) t
  /\ Z.of_nat (String.length (clip t K)) = K
  /\ prefix (clip t K) t = true.
Proof.
  intros H0 HL. unfold clip, slice_to.
  assert (E1 : (Z.of_nat (String.length t) >? K)%Z = true) by (apply Z.gtb_lt; lia).
  assert (E2 : (K <? 0)%Z = false) by (apply Z.ltb_ge; lia).
  rewrite E1, E2. split; [reflexivity|]. split.
  - rewrite substring_0_exact by lia. lia.
  - apply substring_0_prefix.
Qed.

Lemma clip_short (t : string) (K : Z) :
  Z.of_nat (String.length t) <= K -> clip t K = t.
Proof.
  intros HL. unfold clip.
  assert (E1 : (Z.of_nat (String.length t) >? K)%Z = false).
  { rewrite Z.gtb_ltb. apply Z.ltb_ge. lia. }
  now rewrite E1.
Qed.

(** C3, as amended.  Let the extracted text [t] have length [L] and let
    [K >= 0] be the caller's [max_characters].  If [L > K], the report
    carries the first [K] characters of [t], a text of length exactly [K],
    followed by the truncation notice, which states [K] with thousands
    separators and the link to the full document when the case URL is
    known.  If [L <= K], the report carries [t] unchanged as its last line
    and no notice. *)
Theorem truncation (d : dict) (r : Resolved) (K : Z) (t source : string) :
  opinion_text (JDict d) = Ret (JStr t, source) ->
  t <> "" ->
  0 <= K ->
  let head := report_head r (get_or d "author_str" (JStr ""))
                (get_or d "type" (JStr "")) source in
  (Z.of_nat (String.length t) > K ->
   opinion_report r K (JDict d)
   = Ret (join nl (head +++ [ clip t K; truncation_notice K (case_url r) ]))
   /\ Z.of_nat (String.length (clip t K)) = K
   /\ prefix (clip t K) t = true
   /\ truncation_notice K (case_url r)
      = nl ++ "[Truncated at " ++ format_thousands K
           ++ " characters. Full opinion: "
           ++ (if truthy (case_url r) then SITE ++ py_str (case_url r) else "")
           ++ "]")
  /\ (Z.of_nat (String.length t) <= K ->
      opinion_report r K (JDict d) = Ret (join nl (head +++ [ t ]))).
Proof.
  intros Ht Hne HK head. split.
  - intros HL. destruct (clip_long t K HK HL) as (_ & Hlen & Hpre).
    repeat split; try assumption.
    rewrite (opinion_report_text d r K t source Ht Hne).
    assert (E1 : (Z.of_nat (String.length t) >? K)%Z = true) by (apply Z.gtb_lt; lia).
    rewrite E1. reflexivity.
  - intros HL.
    rewrite (opinion_report_text d r K t source Ht Hne).
    rewrite (clip_short t K HL).
    assert (E1 : (Z.of_nat (String.length t) >? K)%Z = false).
    { rewrite Z.gtb_ltb. apply Z.ltb_ge. lia. }
    rewrite E1. reflexivity.
Qed.

(** *** Resolving a cluster to its first opinion *)





Lemma opinion_fetch_log (r : Resolved) (K : Z) (log : list Request) :
  API_TOKEN <> "" ->
  snd (io_bind (api_request (opinion_request (resolved_id r)))
         (fun opinion_data => pass_or_format opinion_data (opinion_report r K)) log)
  = log +++ [opinion_request (resolved_id r)].
Proof.
  intros Htok. unfold io_bind.
  pose proof (api_request_log (opinion_request (resolved_id r)) log Htok) as Hlog.
  destruct (api_request (opinion_request (resolved_id r)) log) as [[data | e] log'];
    simpl in *; [rewrite pass_or_format_log|]; assumption.
Qed.




(** *** An opinion id given by the caller *)

(** C10.  With an opinion id other than 0, [get_case_text] does not depend
    on the cluster id: two calls that differ only in it return the same
    result and leave the same request log.  The log grows by the opinion
    request alone (by nothing without a token), and an opinion request is
    never a cluster request.  When the opinion payload is an object the
    result is the report for the defaults of lines 307-310, whose head has
    no case-name and no date line. *)
Theorem opinion_id_given (cluster_id cluster_id' opinion_id K : Z)
  (log : list Request) :
  opinion_id <> 0 ->
  get_case_text cluster_id opinion_id K log = get_case_text cluster_id' opinion_id K log
  /\ snd (get_case_text cluster_id opinion_id K log)
     = (if String.eqb API_TOKEN "" then log else log +++ [opinion_request opinion_id])
  /\ (forall c, opinion_request opinion_id <> cluster_request c)
  /\ (forall code text d,
         API_TOKEN <> "" ->
         transport log (opinion_request opinion_id) = Response code text (Some (JDict d)) ->
         is_success code = true ->
         fst (get_case_text cluster_id opinion_id K log)
         = opinion_report (unresolved opinion_id) K (JDict d))
  /\ (forall author op_type source,
         report_head (unresolved opinion_id) author op_type source
         = (if truthy author then [ "Author: " ++ py_str author ] else [])
           +++ (if truthy op_type then [ "Opinion Type: " ++ py_str op_type ] else [])
           +++ [ "Text Source: " ++ source;
                 "Opinion ID: " ++ str_of_Z opinion_id;
                 "";
                 "--- OPINION TEXT ---" ]).
Proof.
  intros Ho.
  assert (Hg : forall c,
             get_case_text c opinion_id K log
             = io_bind (api_request (opinion_request opinion_id))
                 (fun opinion_data =>
                    pass_or_format opinion_data (opinion_report (unresolved opinion_id) K))
                 log).
  { intros c. unfold get_case_text.
    apply Z.eqb_neq in Ho. rewrite Ho, andb_false_r. reflexivity. }
  split; [now rewrite (Hg cluster_id), (Hg cluster_id')|].
  split; [|split; [|split]].
  - rewrite Hg. destruct (String.eqb API_TOKEN "") eqn:E.
    + apply String.eqb_eq in E. unfold io_bind.
      rewrite api_request_no_token by assumption. reflexivity.
    + apply String.eqb_neq in E.
      apply (opinion_fetch_log (unresolved opinion_id)). assumption.
  - intros c H. apply (f_equal req_url) in H.
    unfold opinion_request, cluster_request, BASE_V3 in H. simpl in H.
    discriminate H.
  - intros code text d Htok Ht Hs. rewrite Hg. unfold io_bind.
    rewrite (api_request_ok _ _ _ _ _ Htok Ht Hs). reflexivity.
  - intros author op_type source. reflexivity.
Qed.

(** ** Further properties of the gateway and of the tools *)

Lemma status_error_prefix (code : Z) (text : string) :
  prefix "Error: " (status_error code text) = true.
Proof.
  unfold status_error.
  destruct (code =? 401)%Z; [reflexivity|].
  destruct (code =? 429)%Z; [reflexivity|].
  destruct (code =? 404)%Z; reflexivity.
Qed.

(** X1.  What [api_request] returns is either a string that opens with
    ["Error: "] or the decoded body of a 2xx response; what it raises is
    the decoding failure of a 2xx body that is not JSON, or an exception of
    the client that it does not catch.  In the last three cases exactly the
    request was issued. *)
Theorem api_request_outcomes (req : Request) (log log' : list Request) :
  (forall j,
      api_request req log = (Ret j, log') ->
      (exists s, j = JStr s /\ prefix "Error: " s = true)
      \/ (exists code text,
             API_TOKEN <> ""
             /\ transport log req = Response code text (Some j)
             /\ is_success code = true
             /\ log' = log +++ [req]))
  /\ (forall e,
         api_request req log = (Raise e, log') ->
         API_TOKEN <> ""
         /\ log' = log +++ [req]
         /\ ((exists code text,
                 transport log req = Response code text None
                 /\ is_success code = true
                 /\ e = JSONDecodeError)
             \/ transport log req = Uncaught e)).
Proof using API_TOKEN transport.
  unfold api_request.
  destruct (String.eqb API_TOKEN "") eqn:Etok.
  - split.
    + intros j H. injection H as <- <-. left. eexists. split; reflexivity.
    + intros e H. discriminate H.
  - apply String.eqb_neq in Etok.
    destruct (transport log req) as [code text body | | msg | e0] eqn:Et.
    + destruct (is_success code) eqn:Es; [destruct body as [j0|]|]; split.
      * intros j H. injection H as <- <-. right. exists code, text. auto.
      * intros e H. discriminate H.
      * intros j H. discriminate H.
      * intros e H. injection H as <- <-. repeat split; auto.
        left. exists code, text. auto.
      * intros j H. injection H as <- <-. left. eexists. split; [reflexivity|].
        apply status_error_prefix.
      * intros e H. discriminate H.
    + split.
      * intros j H. injection H as <- <-. left. eexists. split; reflexivity.
      * intros e H. discriminate H.
    + split.
      * intros j H. injection H as <- <-. left. eexists. split; reflexivity.
      * intros e H. discriminate H.
    + split.
      * intros j H. discriminate H.
      * intros e H. injection H as <- <-. repeat split; auto.
Qed.

Lemma one_request_passes (req : Request) (fmt : json -> res string)
  (log : list Request) :
  passes_gateway_result
    (io_bind (api_request req) (fun data => pass_or_format data fmt)) req log.
Proof.
  intros log'. unfold io_bind. split.
  - intros s H. rewrite H. reflexivity.
  - intros e H. rewrite H. reflexivity.
Qed.

(** X2.  A tool hands on what the gateway gave it.  An error string
    returned for the tool's request is the tool's result, unchanged, and an
    exception raised for it is raised by the tool; the request log is the
    gateway's, so nothing is retried.  For [get_case_text] this holds for
    the opinion request when an opinion id is given, and for the cluster
    request when only a cluster id is given: after a failed cluster fetch
    no opinion is requested. *)
Theorem gateway_result_is_final
  (query court filed_after filed_before order_by citation : string)
  (limit cluster_id opinion_id max_characters : Z) (log : list Request) :
  passes_gateway_result
    (search_cases query court filed_after filed_before order_by limit)
    (search_request (_search_params query court filed_after filed_before order_by limit))
    log
  /\ passes_gateway_result
       (semantic_search query court filed_after filed_before limit)
       (search_request
          (_search_params query court filed_after filed_before "score desc" limit))
       log
  /\ passes_gateway_result
       (find_citing_cases cluster_id court filed_after filed_before order_by limit)
       (search_request
          (_search_params ("cites:(" ++ str_of_Z cluster_id ++ ")") court filed_after
             filed_before order_by limit))
       log
  /\ passes_gateway_result (lookup_citation citation) (lookup_request citation) log
  /\ (opinion_id <> 0 ->
      passes_gateway_result (get_case_text cluster_id opinion_id max_characters)
        (opinion_request opinion_id) log)
  /\ (cluster_id <> 0 ->
      passes_gateway_result (get_case_text cluster_id 0 max_characters)
        (cluster_request cluster_id) log).
Proof.
  split; [apply one_request_passes|].
  split; [apply one_request_passes|].
  split; [apply one_request_passes|].
  split; [apply one_request_passes|].
  split.
  - intros Ho. apply Z.eqb_neq in Ho.
    intros log'. unfold get_case_text. rewrite Ho, andb_false_r.
    apply (one_request_passes (opinion_request opinion_id)
             (opinion_report (unresolved opinion_id) max_characters)).
  - intros Hc. apply Z.eqb_neq in Hc.
    intros log'.
    split; intros x H; unfold get_case_text; rewrite Hc; cbn [andb Z.eqb];
      unfold io_bind at 1; unfold resolve_cluster; unfold io_bind at 1;
      rewrite H; reflexivity.
Qed.

Lemma one_request_no_token (req : Request) (fmt : json -> res string)
  (log : list Request) :
  API_TOKEN = "" ->
  io_bind (api_request req) (fun data => pass_or_format data fmt) log
  = (Ret NO_TOKEN, log).
Proof.
  intros H. unfold io_bind. rewrite api_request_no_token by assumption. reflexivity.
Qed.

Lemma one_request_log (req : Request) (fmt : json -> res string) (log : list Request) :
  API_TOKEN <> "" ->
  snd (io_bind (api_request req) (fun data => pass_or_format data fmt) log)
  = log +++ [req].
Proof.
  intros H. unfold io_bind.
  pose proof (api_request_log req log H) as Hlog.
  destruct (api_request req log) as [[data | e] log']; simpl in *;
    [rewrite pass_or_format_log|]; assumption.
Qed.

Lemma get_case_text_no_token_log (cluster_id opinion_id K : Z) (log : list Request) :
  API_TOKEN = "" -> snd (get_case_text cluster_id opinion_id K log) = log.
Proof.
  intros H. unfold get_case_text.
  destruct (cluster_id =? 0)%Z; destruct (opinion_id =? 0)%Z; simpl;
    try reflexivity;
    unfold io_bind, resolve_cluster, io_bind, io_ret; simpl;
    rewrite api_request_no_token by assumption; reflexivity.
Qed.

(** The requests of one call of [get_case_text], with a token set. *)
Lemma get_case_text_log (cluster_id opinion_id K : Z) (log : list Request) :
  API_TOKEN <> "" ->
  exists new,
    snd (get_case_text cluster_id opinion_id K log) = log +++ new
    /\ case_text_requests cluster_id new.
Proof.
  intros Htok. unfold get_case_text, case_text_requests.
  destruct (opinion_id =? 0)%Z eqn:Eo.
  - destruct (cluster_id =? 0)%Z eqn:Ec; cbn [andb].
    + exists []. split; [simpl; now rewrite app_nil_r | auto].
    + unfold io_bind at 1. unfold resolve_cluster. unfold io_bind at 1.
      pose proof (api_request_log (cluster_request cluster_id) log Htok) as Hlog.
      destruct (api_request (cluster_request cluster_id) log) as [[data | e] log1];
        simpl in Hlog; subst log1.
      * set (rc := match data with
                   | JStr s => Ret (inl s)
                   | _ => read_cluster cluster_id data
                   end).
        assert (Hrc : (match data with
                       | JStr s => io_ret (inl s)
                       | _ => lift (read_cluster cluster_id data)
                       end) (log +++ [cluster_request cluster_id])
                      = (rc, log +++ [cluster_request cluster_id]))
          by (destruct data; reflexivity).
        rewrite Hrc. destruct rc as [[error | r] | e].
        -- exists [cluster_request cluster_id]. auto.
        -- exists [cluster_request cluster_id; opinion_request (resolved_id r)].
           split; [|right; right; right; now eexists].
           rewrite one_request_log by assumption.
           now rewrite <- app_assoc.
        -- exists [cluster_request cluster_id]. auto.
      * exists [cluster_request cluster_id]. auto.
  - rewrite andb_false_r.
    exists [opinion_request opinion_id]. split; [|right; right; left; now eexists].
    apply (one_request_log (opinion_request opinion_id)
             (opinion_report (unresolved opinion_id) K)). assumption.
Qed.

Lemma one_request_budget (req : Request) (fmt : json -> res string)
  (log : list Request) :
  api_url (req_url req) = true ->
  issues_at_most 1 (io_bind (api_request req) (fun data => pass_or_format data fmt)) log.
Proof.
  intros Hurl. unfold issues_at_most.
  destruct (String.eqb API_TOKEN "") eqn:E.
  - apply String.eqb_eq in E. exists [].
    rewrite one_request_no_token by assumption.
    repeat split; simpl; [now rewrite app_nil_r | lia | constructor].
  - apply String.eqb_neq in E. exists [req].
    rewrite one_request_log by assumption.
    repeat split; simpl; [lia | now constructor].
Qed.

(** X3.  Every request a tool issues goes to a URL under
    [https://www.courtlistener.com/api/rest/].  The search tools and
    [lookup_citation] issue at most one request per call; [get_case_text]
    issues at most two, and they are nothing, the cluster request, one
    opinion request, or the cluster request followed by one opinion
    request. *)
Theorem requests_stay_on_api
  (query court filed_after filed_before order_by citation : string)
  (limit cluster_id opinion_id max_characters : Z) (log : list Request) :
  issues_at_most 1 (search_cases query court filed_after filed_before order_by limit) log
  /\ issues_at_most 1 (semantic_search query court filed_after filed_before limit) log
  /\ issues_at_most 1
       (find_citing_cases cluster_id court filed_after filed_before order_by limit) log
  /\ issues_at_most 1 (lookup_citation citation) log
  /\ issues_at_most 2 (get_case_text cluster_id opinion_id max_characters) log
  /\ exists new,
      snd (get_case_text cluster_id opinion_id max_characters log) = log +++ new
      /\ case_text_requests cluster_id new.
Proof.
  split; [apply one_request_budget; reflexivity|].
  split; [apply one_request_budget; reflexivity|].
  split; [apply one_request_budget; reflexivity|].
  split; [apply one_request_budget; reflexivity|].
  assert (H : exists new,
             snd (get_case_text cluster_id opinion_id max_characters log) = log +++ new
             /\ case_text_requests cluster_id new).
  { destruct (String.eqb API_TOKEN "") eqn:E.
    - apply String.eqb_eq in E. exists [].
      rewrite get_case_text_no_token_log by assumption.
      split; [now rewrite app_nil_r | now left].
    - apply String.eqb_neq in E. now apply get_case_text_log. }
  split; [|exact H].
  destruct H as (new & Hlog & Hnew). exists new. split; [exact Hlog|].
  destruct Hnew as [-> | [-> | [[id ->] | [id ->]]]]; simpl;
    (split; [lia|]); repeat constructor.
Qed.

(** X5.  The query parameters of a search always hold [type = "o"], the
    query, the sort key and the limit (the caller's, clamped into
    [1, 20]); a court or date filter is a
    parameter exactly when it is not empty, and then it is passed as
    given.  No other key occurs, and no key occurs twice. *)
Theorem search_params_content
  (query court filed_after filed_before order_by : string) (limit : Z) :
  let params := _search_params query court filed_after filed_before order_by limit in
  lookup "type" params = Some (JStr "o")
  /\ lookup "q" params = Some (JStr query)
  /\ lookup "order_by" params = Some (JStr order_by)
  /\ lookup "court" params
     = (if String.eqb court "" then None else Some (JStr court))
  /\ lookup "filed_after" params
     = (if String.eqb filed_after "" then None else Some (JStr filed_after))
  /\ lookup "filed_before" params
     = (if String.eqb filed_before "" then None else Some (JStr filed_before))
  /\ lookup "limit" params = Some (JNum (Z.min (Z.max limit 1) 20))
  /\ NoDup (map fst params)
  /\ incl (map fst params)
       [ "type"; "q"; "order_by"; "court"; "filed_after"; "filed_before"; "limit" ].
Proof using.
  unfold _search_params.
  destruct (String.eqb court ""), (String.eqb filed_after ""),
    (String.eqb filed_before "");
    cbn -[String.eqb]; (repeat split; try reflexivity);
    try (repeat constructor; intros H; cbn in H;
         repeat (destruct H as [H|H]; [discriminate H|]); exact H);
    intros k Hk; cbn in Hk |- *;
    repeat (destruct Hk as [<-|Hk]; [repeat (first [left; reflexivity | right])|]);
    destruct Hk.
Qed.

Lemma substring_0_all (n : nat) (s : string) :
  (String.length s <= n)%nat -> substring 0 n s = s.
Proof.
  revert s. induction n as [|n IH]; intros [|c s] H; simpl in *;
    try reflexivity; try lia.
  rewrite IH by lia. reflexivity.
Qed.

Lemma substring_0_drop (n : nat) (s : string) : s = substring 0 n s ++ drop n s.
Proof.
  revert s. induction n as [|n IH]; intros [|c s]; simpl; try reflexivity.
  now rewrite <- IH.
Qed.

Lemma substring_0_min (n : nat) (s : string) :
  String.length (substring 0 n s) = Nat.min n (String.length s).
Proof.
  revert s. induction n as [|n IH]; intros [|c s]; simpl; try reflexivity.
  now rewrite IH.
Qed.

(** X6.  For a status other than 401, 429 and 404, a response body of at
    most 300 characters is carried whole in the error message; a longer
    one is cut to its first 300 characters exactly. *)
Theorem status_error_excerpt (code : Z) (text : string) :
  code <> 401 -> code <> 429 -> code <> 404 ->
  ((String.length text <= 300)%nat ->
   status_error code text = "Error: HTTP " ++ str_of_Z code ++ " — " ++ text)
  /\ ((300 < String.length text)%nat ->
      exists excerpt rest,
        text = excerpt ++ rest
        /\ String.length excerpt = 300%nat
        /\ status_error code text = "Error: HTTP " ++ str_of_Z code ++ " — " ++ excerpt).
Proof.
  intros H1 H2 H3.
  assert (Hs : status_error code text
               = "Error: HTTP " ++ str_of_Z code ++ " — " ++ substring 0 300 text).
  { unfold status_error. apply Z.eqb_neq in H1, H2, H3. now rewrite H1, H2, H3. }
  split.
  - intros Hl. rewrite Hs. now rewrite substring_0_all.
  - intros Hl. exists (substring 0 300 text), (drop 300 text).
    split; [apply substring_0_drop|]. split; [|exact Hs].
    rewrite substring_0_min. lia.
Qed.

(** X7.  A negative [max_characters] truncates every text: the report
    carries the text without its last [-K] characters (nothing when the
    text is no longer than that), always followed by the truncation
    notice. *)
Theorem negative_max_characters (d : dict) (r : Resolved) (K : Z) (t source : string) :
  opinion_text (JDict d) = Ret (JStr t, source) ->
  t <> "" ->
  K < 0 ->
  opinion_report r K (JDict d)
  = Ret (join nl
           (report_head r (get_or d "author_str" (JStr "")) (get_or d "type" (JStr ""))
              source
            +++ [ clip t K; truncation_notice K (case_url r) ]))
  /\ Z.of_nat (String.length (clip t K)) = Z.max 0 (Z.of_nat (String.length t) + K)
  /\ prefix (clip t K) t = true.
Proof.
  intros Ht Hne HK.
  assert (E1 : (Z.of_nat (String.length t) >? K)%Z = true) by (apply Z.gtb_lt; lia).
  assert (E2 : (K <? 0)%Z = true) by (apply Z.ltb_lt; lia).
  split; [|split].
  - rewrite (opinion_report_text d r K t source Ht Hne). now rewrite E1.
  - unfold clip, slice_to. rewrite E1, E2. rewrite substring_0_min. lia.
  - unfold clip, slice_to. rewrite E1, E2. apply substring_0_prefix.
Qed.

(** X8.  A lookup entry whose [clusters] field is a single non-empty
    object is formatted exactly as the entry whose [clusters] field is the
    one-element list of that object. *)
Theorem single_cluster_as_list (di c : dict) :
  c <> [] ->
  entry_lines (JDict (("clusters", JDict c) :: di))
  = entry_lines (JDict (("clusters", JList [JDict c]) :: di)).
Proof.
  intros Hc. destruct c as [|kv c]; [contradiction|].
  unfold entry_lines. cbn [py_get bind_res].
  unfold get_or. cbn [lookup String.eqb Ascii.eqb Bool.eqb].
  destruct (lookup "normalized_citations" di) as [nz|]; reflexivity.
Qed.

(** X9.  When the lookup endpoint answers with an empty payload (an empty
    list or object, [null], [false] or 0), [lookup_citation] returns
    ["No cases found for citation: "] followed by the citation as given. *)
Theorem lookup_empty_payload (citation : string) (log : list Request)
  (code : Z) (text : string) (body : json) :
  API_TOKEN <> "" ->
  transport log (lookup_request citation) = Response code text (Some body) ->
  is_success code = true ->
  is_str body = false ->
  truthy body = false ->
  lookup_citation citation log
  = (Ret ("No cases found for citation: " ++ citation), log +++ [lookup_request citation]).
Proof.
  intros Htok Ht Hc Hstr Hfalsy.
  unfold lookup_citation, io_bind.
  rewrite (api_request_ok _ _ _ _ _ Htok Ht Hc).
  destruct body; try discriminate Hstr;
    unfold pass_or_format, lift, format_lookup; now rewrite Hfalsy.
Qed.


Lemma mapM_enum_first_raise (good : list json) (bad : json) (rest : list json)
  (e : pyexn) :
  forall i0,
    forallb case_ok good = true ->
    format_case (i0 + Z.of_nat (List.length good)) bad = Raise e ->
    mapM_enum format_case i0 (good +++ bad :: rest) = Raise e.
Proof.
  induction good as [|c good IH]; intros i0 Hok Hbad; simpl in *.
  - rewrite Z.add_0_r in Hbad. now rewrite Hbad.
  - apply andb_prop in Hok as [Hc Hgood].
    destruct (format_case_numbered i0 c Hc) as [b Hb]. rewrite Hb.
    rewrite (IH (i0 + 1) Hgood); [reflexivity|].
    now replace (i0 + 1 + Z.of_nat (List.length good))
      with (i0 + Z.pos (Pos.of_succ_nat (List.length good))) by lia.
Qed.

(** X11.  Formatting is all or nothing: when the results before it are
    well formed, the exception raised on a result is raised by
    [format_search_results], and nothing of the earlier results is
    returned.  A result that is not an object raises [AttributeError]. *)
Theorem first_bad_result_raises (d : dict) (header : string)
  (good : list json) (bad : json) (rest : list json) :
  lookup "results" d = Some (JList (good +++ bad :: rest)) ->
  forallb case_ok good = true ->
  (forall e,
      format_case (1 + Z.of_nat (List.length good)) bad = Raise e ->
      format_search_results (JDict d) header = Raise e)
  /\ (is_dict bad = false ->
      format_search_results (JDict d) header = Raise AttributeError).
Proof.
  intros Hl Hok.
  assert (Hres : get_or d "results" (JList []) = JList (good +++ bad :: rest))
    by (unfold get_or; now rewrite Hl).
  assert (Hmain : forall e,
             format_case (1 + Z.of_nat (List.length good)) bad = Raise e ->
             format_search_results (JDict d) header = Raise e).
  { intros e He. unfold format_search_results. cbn [py_get bind_res]. rewrite Hres.
    assert (Ht : truthy (JList (good +++ bad :: rest)) = true)
      by (destruct good; reflexivity).
    rewrite Ht. cbn [negb py_iter bind_res].
    now rewrite (mapM_enum_first_raise good bad rest e 1 Hok He). }
  split; [exact Hmain|].
  intros Hbad. apply Hmain. destruct bad; try discriminate Hbad; reflexivity.
Qed.

(** ** Further properties of the text functions *)

Lemma append_empty_r (s : string) : s ++ "" = s.
Proof.
  induction s as [|c s IH]; simpl; [reflexivity | now rewrite IH].
Qed.

Lemma append_assoc_str (a b c : string) : (a ++ b) ++ c = a ++ b ++ c.
Proof.
  induction a as [|x a IH]; simpl; [reflexivity | now rewrite IH].
Qed.

Lemma length_append_str (a b : string) :
  String.length (a ++ b) = (String.length a + String.length b)%nat.
Proof.
  induction a as [|x a IH]; simpl; [reflexivity | now rewrite IH].
Qed.

Lemma has_tag_tail (c : ascii) (s : string) :
  has_tag (String c s) = false -> has_tag s = false.
Proof.
  simpl. intros H. now apply orb_false_elim in H as [_ H].
Qed.

Lemma open_tag_found (q r : string) :
  q <> "" -> has_gt q = false -> has_tag (String "<" q ++ String ">" r) = true.
Proof.
  intros Hq Hgt. destruct q as [|c q]; [contradiction|].
  simpl in Hgt. apply orb_false_elim in Hgt as [Hc _].
  simpl. rewrite Hc, has_gt_app. simpl. now rewrite orb_true_r.
Qed.

Lemma sub_tags_fixed (s : string) :
  forall pend,
    match pend with
    | None => has_tag s = false -> sub_tags None s = s
    | Some p =>
        forall q, p = String "<" q -> has_gt q = false ->
                  has_tag (p ++ s) = false -> sub_tags (Some p) s = p ++ s
    end.
Proof.
  induction s as [|c s IH]; intros [p|].
  - intros q _ _ _. simpl. now rewrite append_empty_r.
  - reflexivity.
  - intros q Hp Hq Htag. simpl.
    destruct (Ascii.eqb c ">") eqn:Ec.
    + apply Ascii.eqb_eq in Ec. subst c.
      destruct q as [|c' q'].
      * subst p. simpl.
        rewrite (IH None); [reflexivity|].
        apply has_tag_tail in Htag. now apply has_tag_tail in Htag.
      * exfalso. subst p.
        rewrite open_tag_found in Htag; [discriminate | discriminate | assumption].
    + rewrite (IH (Some (p ++ String c "")) (q ++ String c "")).
      * now rewrite append_assoc_str.
      * subst p. reflexivity.
      * rewrite has_gt_app. simpl. now rewrite Hq, Ec.
      * now rewrite append_assoc_str.
  - intros Htag. simpl.
    destruct (Ascii.eqb c "<") eqn:Ec.
    + apply Ascii.eqb_eq in Ec. subst c.
      now rewrite (IH (Some "<") "" eq_refl eq_refl Htag).
    + rewrite (IH None); [reflexivity|]. now apply has_tag_tail in Htag.
Qed.

Lemma sub_tags_length (s : string) :
  forall pend,
    (String.length (sub_tags pend s)
     <= String.length s + match pend with
                          | Some p => String.length p
                          | None => 0
                          end)%nat.
Proof.
  induction s as [|c s IH]; intros [p|]; simpl; try lia.
  - destruct (Ascii.eqb c ">").
    + destruct (String.eqb p "<") eqn:Ep.
      * apply String.eqb_eq in Ep. subst p. specialize (IH None). simpl in *. lia.
      * specialize (IH None). simpl in IH. lia.
    + specialize (IH (Some (p ++ String c ""))). simpl in IH.
      rewrite length_append_str in IH. simpl in IH. lia.
  - destruct (Ascii.eqb c "<").
    + specialize (IH (Some "<")). simpl in IH. lia.
    + specialize (IH None). simpl in *. lia.
Qed.

(** X12.  Removing the tags leaves a text that holds no tag unchanged; it
    is idempotent, and it never makes the text longer. *)
Theorem re_sub_tags_clean (s : string) :
  (has_tag s = false -> re_sub_tags s = s)
  /\ re_sub_tags (re_sub_tags s) = re_sub_tags s
  /\ (String.length (re_sub_tags s) <= String.length s)%nat.
Proof.
  assert (Hfix : forall t, has_tag t = false -> re_sub_tags t = t)
    by (intros t; apply (sub_tags_fixed t None)).
  split; [apply Hfix|]. split.
  - apply Hfix, re_sub_tags_no_tag.
  - pose proof (sub_tags_length s None) as H. simpl in H. unfold re_sub_tags. lia.
Qed.

Lemma prefix_head_ne (a b : ascii) (p s : string) :
  a <> b -> prefix (String a p) (String b s) = false.
Proof.
  intros H. change (prefix (String a p) (String b s))
    with (if ascii_dec a b then prefix p s else false).
  now destruct (ascii_dec a b).
Qed.

Lemma sub_mark_0_cons (c : ascii) (r : string) :
  sub_mark 0 (String c r)
  = if prefix "<mark>" (String c r) then sub_mark 5 r
    else if prefix "</mark>" (String c r) then sub_mark 6 r
         else String c (sub_mark 0 r).
Proof.
  reflexivity.
Qed.

Lemma sub_mark_plain (a b : string) :
  has_lt a = false -> sub_mark 0 (a ++ b) = a ++ sub_mark 0 b.
Proof.
  induction a as [|c a IH]; intros H; [reflexivity|].
  simpl in H. apply orb_false_elim in H as [Hc Ha].
  assert (Hne : "<"%char <> c).
  { intros <-. discriminate Hc. }
  change (String c a ++ b) with (String c (a ++ b)).
  rewrite sub_mark_0_cons, !prefix_head_ne by assumption.
  rewrite IH by assumption. reflexivity.
Qed.

(** X13.  Removing the highlight tags keeps a snippet without ["<"] as it
    is, and after text without ["<"] it drops an opening or a closing
    [mark] tag and goes on with what follows. *)
Theorem re_sub_mark_spec (a b : string) :
  has_lt a = false ->
  re_sub_mark a = a
  /\ re_sub_mark (a ++ "<mark>" ++ b) = a ++ re_sub_mark b
  /\ re_sub_mark (a ++ "</mark>" ++ b) = a ++ re_sub_mark b.
Proof.
  intros Ha. unfold re_sub_mark. split; [|split].
  - rewrite <- (append_empty_r a) at 1. rewrite sub_mark_plain by assumption.
    simpl. apply append_empty_r.
  - rewrite sub_mark_plain by assumption. now destruct b.
  - rewrite sub_mark_plain by assumption. now destruct b.
Qed.

Lemma prefix_app (p s : string) : prefix p (p ++ s) = true.
Proof.
  induction p as [|c p IH].
  - now destruct s.
  - change (prefix (String c p) (String c p ++ s))
      with (if ascii_dec c c then prefix p (p ++ s) else false).
    now destruct (ascii_dec c c).
Qed.

Lemma span_digits_app (ds post : string) :
  all_digits ds = true -> span_digits (ds ++ String "/" post) = (ds, String "/" post).
Proof.
  unfold all_digits. induction ds as [|c ds IH]; intros H; [reflexivity|].
  simpl in H. apply andb_prop in H as [Hc Hds].
  simpl. rewrite Hc, (IH Hds). reflexivity.
Qed.

Lemma match_opinion_at_here (ds post : string) :
  all_digits ds = true ->
  ds <> "" ->
  match_opinion_at ("/opinions/" ++ ds ++ "/" ++ post) = Some ds.
Proof.
  intros Hd Hne. unfold match_opinion_at.
  rewrite prefix_app.
  change (drop 10 ("/opinions/" ++ ds ++ "/" ++ post)) with (ds ++ String "/" post).
  rewrite (span_digits_app ds post Hd).
  destruct ds as [|c ds]; [contradiction | reflexivity].
Qed.

Lemma re_search_opinion_cons (c : ascii) (s : string) :
  re_search_opinion (String c s)
  = match match_opinion_at (String c s) with
    | Some ds => Some ds
    | None => re_search_opinion s
    end.
Proof.
  reflexivity.
Qed.

(** A prefix that holds no ["/o"] holds no start of a match, when what
    follows it starts with ["/"]. *)
Lemma re_search_opinion_skip (pre rest : string) :
  no_slash_o pre = true ->
  re_search_opinion (pre ++ String "/" rest) = re_search_opinion (String "/" rest).
Proof.
  induction pre as [|c pre IH]; intros H; [reflexivity|].
  simpl in H. apply andb_prop in H as [Hc Hpre].
  change (String c pre ++ String "/" rest) with (String c (pre ++ String "/" rest)).
  rewrite re_search_opinion_cons.
  assert (Hmiss : match_opinion_at (String c (pre ++ String "/" rest)) = None).
  { unfold match_opinion_at.
    destruct (ascii_dec "/" c) as [<-|Hne].
    - destruct pre as [|c' pre'].
      + now destruct rest.
      + simpl in Hc. apply negb_true_iff in Hc.
        change (prefix "/opinions/" (String "/" (String c' pre' ++ String "/" rest)))
          with (if ascii_dec "/" "/"
                then prefix "opinions/" (String c' (pre' ++ String "/" rest))
                else false).
        destruct (ascii_dec "/" "/"); [|reflexivity].
        rewrite prefix_head_ne; [reflexivity|].
        intros <-. discriminate Hc.
    - now rewrite prefix_head_ne. }
  rewrite Hmiss. now apply IH.
Qed.

(** X14.  In a reference that holds no ["/o"] before it, the first
    segment ["/opinions/<digits>/"] is the one found, whatever follows
    it. *)
Theorem opinion_segment_found (pre ds post : string) :
  no_slash_o pre = true ->
  all_digits ds = true ->
  ds <> "" ->
  re_search_opinion (pre ++ "/opinions/" ++ ds ++ "/" ++ post) = Some ds.
Proof.
  intros Hpre Hd Hne.
  change (pre ++ "/opinions/" ++ ds ++ "/" ++ post)
    with (pre ++ String "/" ("opinions/" ++ ds ++ "/" ++ post)).
  rewrite re_search_opinion_skip by assumption.
  rewrite re_search_opinion_cons.
  change (String "/" ("opinions/" ++ ds ++ "/" ++ post))
    with ("/opinions/" ++ ds ++ "/" ++ post).
  now rewrite match_opinion_at_here.
Qed.

Lemma all_digits_uint (d : Decimal.uint) :
  all_digits (NilEmpty.string_of_uint d) = true.
Proof.
  unfold all_digits. induction d; simpl; auto.
Qed.

Lemma str_of_Z_digits (n : Z) :
  0 <= n -> all_digits (str_of_Z n) = true /\ str_of_Z n <> "".
Proof.
  intros Hn. destruct n as [|p|p]; [split; [reflexivity | discriminate] | | lia].
  unfold str_of_Z. simpl.
  destruct (Pos.to_uint p) eqn:E; simpl;
    (split; [first [reflexivity | apply (all_digits_uint _)] | discriminate]).
Qed.





Lemma filter_commas (l : list ascii) :
  forall k,
    filter (fun c => negb (Ascii.eqb c ",")) (commas k l)
    = filter (fun c => negb (Ascii.eqb c ",")) l.
Proof.
  induction l as [|d l IH]; intros k; [reflexivity|].
  destruct k as [|[|[|[|k]]]]; simpl; rewrite IH; reflexivity.
Qed.

Lemma digits_no_comma (l : list ascii) :
  forallb is_digit l = true -> filter (fun c => negb (Ascii.eqb c ",")) l = l.
Proof.
  induction l as [|c l IH]; intros H; [reflexivity|].
  simpl in H. apply andb_prop in H as [Hc Hl].
  simpl. rewrite (IH Hl).
  destruct (Ascii.eqb c ",") eqn:E; [|reflexivity].
  apply Ascii.eqb_eq in E. subst c. discriminate Hc.
Qed.

Lemma filter_rev {A : Type} (f : A -> bool) (l : list A) :
  filter f (rev l) = rev (filter f l).
Proof.
  induction l as [|a l IH]; [reflexivity|].
  simpl. rewrite filter_app, IH. simpl.
  destruct (f a); simpl; [reflexivity | now rewrite app_nil_r].
Qed.

Lemma remove_commas_grouped (ds : string) :
  all_digits ds = true ->
  remove_commas
    (string_of_list_ascii (rev (commas 0 (rev (list_ascii_of_string ds)))))
  = ds.
Proof.
  intros Hd. unfold remove_commas.
  rewrite list_ascii_of_string_of_list_ascii, filter_rev, filter_commas, filter_rev,
    rev_involutive.
  rewrite digits_no_comma by exact Hd.
  apply string_of_list_ascii_of_string.
Qed.

(** X16.  The number that the truncation notice prints with thousands
    separators is the decimal numeral of [max_characters] once the commas
    are taken out, sign included. *)
Theorem format_thousands_digits (n : Z) :
  remove_commas (format_thousands n) = str_of_Z n.
Proof.
  unfold format_thousands. destruct n as [|p|p].
  - reflexivity.
  - change (Z.pos p <? 0)%Z with false. cbn iota.
    apply remove_commas_grouped.
    now apply (str_of_Z_digits (Z.pos p)).
  - change (Z.neg p <? 0)%Z with true. cbn iota.
    change (Z.abs (Z.neg p)) with (Z.pos p).
    assert (Hd : all_digits (str_of_Z (Z.pos p)) = true)
      by now apply (str_of_Z_digits (Z.pos p)).
    pose proof (remove_commas_grouped (str_of_Z (Z.pos p)) Hd) as H.
    unfold remove_commas in *.
    change (list_ascii_of_string ("-" ++ ?x)) with ("-"%char :: list_ascii_of_string x).
    cbn [filter Ascii.eqb Bool.eqb negb string_of_list_ascii].
    rewrite H. reflexivity.
Qed.

(** ** Further properties of the lookup entries *)

(** X17.  Resolved clusters are listed for status 200 only: for an entry
    whose status is anything else, the lines do not depend on its
    [clusters] field. *)
Theorem clusters_ignored_unless_200 (di : dict) (clusters clusters' : json) :
  eq_int (get_or di "status" (JStr "?")) 200 = false ->
  entry_lines (JDict (("clusters", clusters) :: di))
  = entry_lines (JDict (("clusters", clusters') :: di)).
Proof.
  intros Hs. unfold entry_lines. cbn [py_get bind_res].
  assert (Hst : forall x,
             get_or (("clusters", x) :: di) "status" (JStr "?")
             = get_or di "status" (JStr "?")) by reflexivity.
  assert (Hci : forall x dflt,
             get_or (("clusters", x) :: di) "citation" dflt = get_or di "citation" dflt)
    by reflexivity.
  assert (Hno : forall x dflt,
             get_or (("clusters", x) :: di) "normalized_citations" dflt
             = get_or di "normalized_citations" dflt) by reflexivity.
  rewrite !Hst, !Hci, !Hno, Hs, !andb_false_r. reflexivity.
Qed.

End Server.

(** ** The properties on the sample data *)

Lemma sample_token_set : "token" <> "".
Proof.
  discriminate.
Defined.

Lemma no_token_no_request_witness :
  "" = ""
  /\ search_cases repr_quote "" sample_transport "privacy" "scotus" "" ""
       "score desc" 10 [] = (Ret NO_TOKEN, [])
  /\ get_case_text repr_quote "" sample_transport 12345 0 50000 [] = (Ret NO_TOKEN, []).
Proof.
  split; [reflexivity|].
  pose proof (no_token_no_request repr_quote "" sample_transport "privacy" "scotus"
                "" "" "score desc" "410 U.S. 113" 10 12345 0 50000 [] eq_refl)
    as (H1 & _ & _ & _ & H5).
  split; [exact H1 | exact H5].
Defined.

Lemma no_token_counterexample :
  get_case_text repr_quote "" sample_transport 0 0 50000 []
  = (Ret "Error: Provide either cluster_id or opinion_id.", [])
  /\ fst (get_case_text repr_quote "" sample_transport 0 0 50000 []) <> Ret NO_TOKEN.
Proof.
  split; [reflexivity|]. intros H. vm_compute in H. discriminate H.
Qed.

Lemma api_request_errors_witness :
  "token" <> ""
  /\ sample_transport [] (opinion_request 5) = Response 500 "Internal Server Error" None
  /\ is_success 500 = false
  /\ api_request "token" sample_transport (opinion_request 5) []
     = (Ret (JStr "Error: HTTP 500 — Internal Server Error"), [opinion_request 5]).
Proof.
  split; [exact sample_token_set|]. split; [reflexivity|]. split; [reflexivity|].
  exact (proj1 (proj1 (api_request_errors "token" sample_transport (opinion_request 5)
                         [] sample_token_set)
                  500 "Internal Server Error" None eq_refl eq_refl)).
Defined.

Lemma limit_clamped_witness :
  "token" <> ""
  /\ snd (search_cases repr_quote "token" sample_transport "privacy" "" "" ""
            "score desc" 500 [])
     = [ mkRequest "GET" "https://www.courtlistener.com/api/rest/v4/search/"
           (Some [ ("type", JStr "o"); ("q", JStr "privacy");
                   ("order_by", JStr "score desc"); ("limit", JNum 20) ])
           None ].
Proof.
  split; [exact sample_token_set|].
  exact (proj1 (limit_clamped repr_quote "token" sample_transport "privacy" "" "" ""
                  "score desc" 500 0 [] sample_token_set)).
Defined.

Lemma citation_text_joined_witness :
  [full_citation] <> []
  /\ citation_text repr_quote (JDict [("citations", JList [JDict full_citation])])
     = Ret "410 U.S. 113"
  /\ is_strip_of (render_fields repr_quote full_citation) "410 U.S. 113"
  /\ is_space "009" = true
  /\ is_space "160" = true.
Proof.
  assert (Hne : [full_citation] <> []) by discriminate.
  pose proof (citation_text_joined repr_quote [("citations", JList [JDict full_citation])])
    as (_ & _ & _ & H4 & H5).
  destruct (H4 [full_citation] Hne eq_refl) as (Hjoin & _ & Hstrip).
  split; [exact Hne|]. split; [exact Hjoin|]. split.
  - exact (Forall_inv Hstrip).
  - split.
    + apply (proj2 (H5 "009"%char)). left. reflexivity.
    + apply (proj2 (H5 "160"%char)). do 11 right. left. reflexivity.
Defined.

Lemma citation_text_counterexample :
  citation_text repr_quote (JDict [("citations", JList [JDict gap_citation])])
  = Ret "410  113"
  /\ "410  113" <> fields_one_space_apart "410" "" "113".
Proof.
  split; [reflexivity|]. intros H. vm_compute in H. discriminate H.
Qed.

Lemma search_results_format_witness :
  format_search_results repr_quote (JDict [("count", JNum 0); ("results", JList [])])
    "Cases citing cluster 7"
  = Ret "No results found. Cases citing cluster 7"
  /\ sample_cases <> []
  /\ forallb case_ok sample_cases = true
  /\ exists blocks,
      format_search_results repr_quote (JDict sample_search) "Cases citing cluster 7"
      = Ret (join nl (("Cases citing cluster 7 (2 total results)" ++ nl) :: blocks))
      /\ List.length blocks = 2%nat.
Proof.
  split.
  - exact (proj1 (search_results_format repr_quote
                    [("count", JNum 0); ("results", JList [])]
                    "Cases citing cluster 7") eq_refl).
  - assert (Hne : sample_cases <> []) by discriminate.
    split; [exact Hne|]. split; [reflexivity|].
    destruct (proj2 (search_results_format repr_quote sample_search
                       "Cases citing cluster 7")
                sample_cases Hne eq_refl eq_refl) as (blocks & H1 & H2 & _).
    exists blocks. split; [exact H1 | exact H2].
Defined.

Lemma lookup_not_found_witness :
  lookup "status" not_found_entry = Some (JNum 404)
  /\ entry_lines repr_quote (JDict not_found_entry)
     = Ret [ "Citation: 410 U.S. 113";
             "Normalized: 410 U.S. 113";
             "Status: 404";
             "No matching case found for this citation.";
             "" ]
  /\ lookup_citation repr_quote "token" sample_transport "410 U.S. 113" []
     = (Ret (join nl [ "Citation: 410 U.S. 113";
                       "Normalized: 410 U.S. 113";
                       "Status: 404";
                       "No matching case found for this citation." ]),
        [ mkRequest "POST" "https://www.courtlistener.com/api/rest/v3/citation-lookup/"
            None (Some [("text", JStr "410 U.S. 113")]) ])
  /\ format_lookup repr_quote "x" (JList [JDict nbsp_entry])
     = Ret (join nl [ "Citation: x"; "Status: ok" ]).
Proof.
  assert (Hne : ["410 U.S. 113"] <> []) by discriminate.
  assert (Hne' : [JDict nbsp_entry] <> []) by discriminate.
  pose proof (lookup_not_found repr_quote "token" sample_transport "410 U.S. 113"
                not_found_entry eq_refl) as (_ & H2 & _ & _ & H5 & _).
  pose proof (lookup_not_found repr_quote "token" sample_transport "x"
                not_found_entry eq_refl) as (_ & _ & _ & H4 & _).
  split; [reflexivity|]. split; [|split].
  - exact (H2 ["410 U.S. 113"] Hne eq_refl).
  - exact (H5 [] 200 "" [JDict not_found_entry] sample_token_set eq_refl eq_refl).
  - exact (proj1 (H4 [JDict nbsp_entry] _ Hne' eq_refl)).
Defined.

Lemma opinion_text_priority_witness :
  opinion_text (JDict plain_opinion) = Ret (JStr "It is so ordered.", "plain_text")
  /\ opinion_text (JDict roe_opinion)
     = Ret (JStr "The judgment is affirmed.", "html_with_citations").
Proof.
  assert (H1 : "It is so ordered." <> "") by discriminate.
  assert (H2 : "<p>The judgment is <b>affirmed</b>.</p>" <> "") by discriminate.
  split.
  - exact (proj1 (opinion_text_priority repr_quote plain_opinion (unresolved 987) 50000)
             "It is so ordered." eq_refl H1).
  - exact (proj1 (proj1 (proj2 (opinion_text_priority repr_quote roe_opinion
                                  (unresolved 987) 50000))
                    [] "html_with_citations" (tl html_fields)
                    "<p>The judgment is <b>affirmed</b>.</p>"
                    eq_refl eq_refl (Forall_nil _) eq_refl H2)).
Defined.

Lemma opinion_text_counterexample :
  field_empty tags_only_opinion "plain_text"
  /\ lookup "html_with_citations" tags_only_opinion = Some (JStr "<br>")
  /\ lookup "html" tags_only_opinion = Some (JStr "The judgment is affirmed.")
  /\ opinion_report repr_quote (unresolved 987) 50000 (JDict tags_only_opinion)
     = Ret "Error: No text content available for opinion 987."
  /\ opinion_report repr_quote (unresolved 987) 50000 (JDict tags_only_opinion)
     <> Ret (join nl (report_head repr_quote (unresolved 987) (JStr "") (JStr "")
                        "html_with_citations"
                      +++ [ re_sub_tags "<br>" ])).
Proof.
  repeat split; try reflexivity. intros H. vm_compute in H. discriminate H.
Qed.

Lemma truncation_witness :
  opinion_text (JDict plain_opinion) = Ret (JStr "It is so ordered.", "plain_text")
  /\ "It is so ordered." <> ""
  /\ 0 <= 5
  /\ opinion_report repr_quote (unresolved 987) 5 (JDict plain_opinion)
     = Ret (join nl [ "Text Source: plain_text";
                      "Opinion ID: 987";
                      "";
                      "--- OPINION TEXT ---";
                      "It is";
                      nl ++ "[Truncated at 5 characters. Full opinion: ]" ]).
Proof.
  assert (H1 : "It is so ordered." <> "") by discriminate.
  assert (H2 : 0 <= 5) by lia.
  split; [reflexivity|]. split; [exact H1|]. split; [exact H2|].
  exact (proj1 (proj1 (truncation repr_quote plain_opinion (unresolved 987) 5
                         "It is so ordered." "plain_text" eq_refl H1 H2)
                  eq_refl)).
Defined.

Lemma truncation_counterexample :
  opinion_text (JDict [("plain_text", JStr "hello")]) = Ret (JStr "hello", "plain_text")
  /\ Z.of_nat (String.length "hello") > -1
  /\ opinion_report repr_quote (unresolved 987) (-1) (JDict [("plain_text", JStr "hello")])
     = Ret (join nl [ "Text Source: plain_text";
                      "Opinion ID: 987";
                      "";
                      "--- OPINION TEXT ---";
                      "hell";
                      nl ++ "[Truncated at -1 characters. Full opinion: ]" ])
  /\ Z.of_nat (String.length "hell") <> -1.
Proof.
  repeat split; try reflexivity. discriminate.
Qed.


Lemma opinion_id_given_witness :
  987 <> 0
  /\ get_case_text repr_quote "token" sample_transport 1 987 50000 []
     = get_case_text repr_quote "token" sample_transport 2 987 50000 [].
Proof.
  assert (Ho : 987 <> 0) by discriminate.
  split; [exact Ho|].
  exact (proj1 (opinion_id_given repr_quote "token" sample_transport 1 2 987 50000 []
                  Ho)).
Defined.

(** ** The further properties on the sample data *)

Lemma api_request_outcomes_witness :
  api_request "token" sample_transport (opinion_request 5) []
  = (Ret (JStr "Error: HTTP 500 — Internal Server Error"), [opinion_request 5])
  /\ ((exists s,
          JStr "Error: HTTP 500 — Internal Server Error" = JStr s
          /\ prefix "Error: " s = true)
      \/ (exists code text,
             "token" <> ""
             /\ sample_transport [] (opinion_request 5)
                = Response code text
                    (Some (JStr "Error: HTTP 500 — Internal Server Error"))
             /\ is_success code = true
             /\ [opinion_request 5] = [] +++ [opinion_request 5])).
Proof.
  split; [reflexivity|].
  exact (proj1 (api_request_outcomes "token" sample_transport (opinion_request 5) []
                  [opinion_request 5])
           (JStr "Error: HTTP 500 — Internal Server Error") eq_refl).
Defined.

Lemma gateway_result_is_final_witness :
  12345 <> 0
  /\ api_request "token" (fun _ _ => TimeoutException) (cluster_request 12345) []
     = (Ret (JStr "Error: Request timed out after 30 seconds."), [cluster_request 12345])
  /\ get_case_text repr_quote "token" (fun _ _ => TimeoutException) 12345 0 50000 []
     = (Ret "Error: Request timed out after 30 seconds.", [cluster_request 12345]).
Proof.
  assert (Hc : 12345 <> 0) by discriminate.
  split; [exact Hc|]. split; [reflexivity|].
  pose proof (gateway_result_is_final repr_quote "token" (fun _ _ => TimeoutException)
                "privacy" "" "" "" "score desc" "410 U.S. 113" 10 12345 0 50000 [])
    as (_ & _ & _ & _ & _ & H).
  exact (proj1 (H Hc [cluster_request 12345])
           "Error: Request timed out after 30 seconds." eq_refl).
Defined.

Lemma status_error_excerpt_witness :
  500 <> 401 /\ 500 <> 429 /\ 500 <> 404
  /\ (String.length "Internal Server Error" <= 300)%nat
  /\ status_error 500 "Internal Server Error" = "Error: HTTP 500 — Internal Server Error".
Proof.
  assert (H1 : 500 <> 401) by discriminate.
  assert (H2 : 500 <> 429) by discriminate.
  assert (H3 : 500 <> 404) by discriminate.
  assert (Hl : (String.length "Internal Server Error" <= 300)%nat) by (simpl; lia).
  split; [exact H1|]. split; [exact H2|]. split; [exact H3|]. split; [exact Hl|].
  exact (proj1 (status_error_excerpt 500 "Internal Server Error" H1 H2 H3) Hl).
Defined.

Lemma negative_max_characters_witness :
  opinion_text (JDict plain_opinion) = Ret (JStr "It is so ordered.", "plain_text")
  /\ "It is so ordered." <> ""
  /\ -4 < 0
  /\ opinion_report repr_quote (unresolved 987) (-4) (JDict plain_opinion)
     = Ret (join nl [ "Text Source: plain_text";
                      "Opinion ID: 987";
                      "";
                      "--- OPINION TEXT ---";
                      "It is so orde";
                      nl ++ "[Truncated at -4 characters. Full opinion: ]" ]).
Proof.
  assert (H1 : "It is so ordered." <> "") by discriminate.
  assert (H2 : -4 < 0) by lia.
  split; [reflexivity|]. split; [exact H1|]. split; [exact H2|].
  exact (proj1 (negative_max_characters repr_quote plain_opinion (unresolved 987) (-4)
                  "It is so ordered." "plain_text" eq_refl H1 H2)).
Defined.

Lemma single_cluster_as_list_witness :
  roe_cluster <> []
  /\ entry_lines repr_quote
       (JDict [ ("clusters", JDict roe_cluster); ("citation", JStr "410 U.S. 113");
                ("status", JNum 200) ])
     = entry_lines repr_quote
         (JDict [ ("clusters", JList [JDict roe_cluster]);
                  ("citation", JStr "410 U.S. 113"); ("status", JNum 200) ]).
Proof.
  assert (H : roe_cluster <> []) by discriminate.
  split; [exact H|].
  exact (single_cluster_as_list repr_quote
           [ ("citation", JStr "410 U.S. 113"); ("status", JNum 200) ] roe_cluster H).
Defined.

Lemma lookup_empty_payload_witness :
  "token" <> ""
  /\ empty_transport [] (lookup_request "no citation here") = Response 200 "[]" (Some (JList []))
  /\ lookup_citation repr_quote "token" empty_transport "no citation here" []
     = (Ret "No cases found for citation: no citation here",
        [lookup_request "no citation here"]).
Proof.
  split; [exact sample_token_set|]. split; [reflexivity|].
  exact (lookup_empty_payload repr_quote "token" empty_transport "no citation here" []
           200 "[]" (JList []) sample_token_set eq_refl eq_refl eq_refl eq_refl).
Defined.


Lemma first_bad_result_raises_witness :
  forallb case_ok sample_cases = true
  /\ is_dict (JStr "Roe v. Wade") = false
  /\ format_search_results repr_quote
       (JDict [ ("count", JNum 3);
                ("results", JList (sample_cases +++ [JStr "Roe v. Wade"])) ])
       "Cases citing cluster 7"
     = Raise AttributeError.
Proof.
  split; [reflexivity|]. split; [reflexivity|].
  exact (proj2 (first_bad_result_raises repr_quote
                  [ ("count", JNum 3);
                    ("results", JList (sample_cases +++ [JStr "Roe v. Wade"])) ]
                  "Cases citing cluster 7" sample_cases (JStr "Roe v. Wade") []
                  eq_refl eq_refl)
           eq_refl).
Defined.

Lemma re_sub_tags_clean_witness :
  has_tag "a > b, c <> d, 1 < 2" = false
  /\ re_sub_tags "a > b, c <> d, 1 < 2" = "a > b, c <> d, 1 < 2".
Proof.
  split; [reflexivity|].
  exact (proj1 (re_sub_tags_clean "a > b, c <> d, 1 < 2") eq_refl).
Defined.

Lemma re_sub_mark_spec_witness :
  has_lt "right of " = false
  /\ re_sub_mark ("right of " ++ "<mark>" ++ "privacy</mark>") = "right of privacy".
Proof.
  split; [reflexivity|].
  exact (proj1 (proj2 (re_sub_mark_spec "right of " "privacy</mark>" eq_refl))).
Defined.

Lemma opinion_segment_found_witness :
  no_slash_o "https://x" = true
  /\ all_digits "987" = true
  /\ "987" <> ""
  /\ re_search_opinion ("https://x" ++ "/opinions/" ++ "987" ++ "/" ++ "?format=json")
     = Some "987".
Proof.
  assert (H : "987" <> "") by discriminate.
  split; [reflexivity|]. split; [reflexivity|]. split; [exact H|].
  exact (opinion_segment_found "https://x" "987" "?format=json" eq_refl eq_refl H).
Defined.


Lemma clusters_ignored_unless_200_witness :
  eq_int (get_or ambiguous_entry "status" (JStr "?")) 200 = false
  /\ entry_lines repr_quote (JDict (("clusters", JList [JDict roe_cluster]) :: ambiguous_entry))
     = Ret [ "Citation: 1 U.S. 1"; "Status: 300"; "" ].
Proof.
  split; [reflexivity|].
  exact (clusters_ignored_unless_200 repr_quote ambiguous_entry
           (JList [JDict roe_cluster]) JNull eq_refl).
Defined.
